(** * The item-association recommendation engine (models/recommender.py)

    A shallow embedding of the class [MenuRecommender]: the training pass
    that builds the co-occurrence and popularity tables, and the query
    methods that read them.

    Modelling conventions.
    - Python [int] is [Z]; item identifiers, counts, [top_k] and the integer
      [min_support] are integers.
    - Python [float] is modelled by the exact rational it denotes ([Q]):
      true division is the exact quotient, [round(x, n)] is rounding to the
      nearest multiple of [10^-n], ties to even.  Binary rounding error of
      IEEE doubles is outside the model.
    - A [dict] is an association list in insertion order: iteration order is
      the order in which keys were first inserted, and it is the order the
      stable [sorted] sees.
    - A method is a function from the object to an outcome and the object
      after the call; an exception keeps whatever the method had already
      stored in the object. *)

From Stdlib Require Import String ZArith QArith Qround List Bool Lia Lqa
  Permutation Sorted.
Import ListNotations.

Local Open Scope Z_scope.

(** ** Exceptions and outcomes *)

Inductive exn : Type :=
| ValueError (msg : string)
| ZeroDivisionError
| TypeError
| AttributeError.

Inductive result (A : Type) : Type :=
| Ok (a : A)
| Raise (e : exn).

Arguments Ok {A} a.
Arguments Raise {A} e.

(** ** Insertion-ordered dictionaries with integer keys *)

Module Dict.
Section Dict.
Context {V : Type}.

Definition t : Type := list (Z * V).

Definition empty : t := [].

Fixpoint get (k : Z) (d : t) : option V :=
  match d with
  | [] => None
  | (k', v) :: r => if k =? k' then Some v else get k r
  end.

(** [k in d] *)
Definition contains (k : Z) (d : t) : bool :=
  match get k d with Some _ => true | None => false end.

(** [d.get(k, dflt)] *)
Definition get_default (k : Z) (dflt : V) (d : t) : V :=
  match get k d with Some v => v | None => dflt end.

(** [d[k] = v]: an existing key keeps its position, a new key goes last. *)
Fixpoint set (k : Z) (v : V) (d : t) : t :=
  match d with
  | [] => [(k, v)]
  | (k', v') :: r => if k =? k' then (k, v) :: r else (k', v') :: set k v r
  end.

Definition items (d : t) : list (Z * V) := d.
Definition keys (d : t) : list Z := map fst d.
Definition values (d : t) : list V := map snd d.

(** [d[k]] on a [defaultdict] whose factory returns [dflt]: a missing key
    is inserted with the default before it is returned. *)
Definition dd_getitem (dflt : V) (k : Z) (d : t) : V * t :=
  match get k d with
  | Some v => (v, d)
  | None => (dflt, set k dflt d)
  end.
End Dict.
Arguments t V : clear implicits.
End Dict.

(** [d[k] += 1] on a [defaultdict(int)]. *)
Definition incr (k : Z) (d : Dict.t Z) : Dict.t Z :=
  let '(v, d') := Dict.dd_getitem 0 k d in Dict.set k (v + 1) d'.

(** [c[a][b] += 1] on a [defaultdict(lambda: defaultdict(int))]: the inner
    dictionary is fetched (and created when missing), then updated in place,
    so it stays at the position of [a]. *)
Definition cooc_incr (a b : Z) (c : Dict.t (Dict.t Z)) : Dict.t (Dict.t Z) :=
  let '(inner, c') := Dict.dd_getitem Dict.empty a c in
  Dict.set a (incr b inner) c'.

(** ** Python built-ins used by the class *)

(** [itertools.combinations(l, 2)] *)
Fixpoint combinations2 {A : Type} (l : list A) : list (A * A) :=
  match l with
  | [] => []
  | x :: r => map (pair x) r ++ combinations2 r
  end.

(** [l[:k]] for an integer [k]; a negative [k] counts from the end. *)
Definition slice_to {A : Type} (k : Z) (l : list A) : list A :=
  if 0 <=? k then firstn (Z.to_nat k) l
  else firstn (Z.to_nat (Z.of_nat (length l) + k)) l.

(** [sorted(l, key=key, reverse=True)]: descending by key, and stable, that
    is, elements with equal keys keep their relative order. *)
Section PySorted.
Context {A K : Type} (key : A -> K) (ltb : K -> K -> bool).

Fixpoint insert_desc (x : A) (l : list A) : list A :=
  match l with
  | [] => [x]
  | y :: r => if ltb (key x) (key y) then y :: insert_desc x r else x :: l
  end.

Definition sorted_reverse (l : list A) : list A :=
  fold_right insert_desc [] l.
End PySorted.

Definition Qltb (x y : Q) : bool := negb (Qle_bool y x).

(** [a / b] on two integers *)
Definition truediv (a b : Z) : result Q :=
  if b =? 0 then Raise ZeroDivisionError
  else Ok (inject_Z a / inject_Z b)%Q.

(** Nearest integer, ties to even. *)
Definition round_half_even (q : Q) : Z :=
  let f := Qfloor q in
  match ((q - inject_Z f) * 2 ?= 1)%Q with
  | Lt => f
  | Gt => f + 1
  | Eq => if Z.even f then f else f + 1
  end.

(** [round(x, ndigits)] *)
Definition round (x : Q) (ndigits : Z) : Q :=
  (inject_Z (round_half_even (x * inject_Z (10 ^ ndigits)))
   / inject_Z (10 ^ ndigits))%Q.

Definition Zsum (l : list Z) : Z := fold_left Z.add l 0.

(** ** The recommender object *)

Record MenuRecommender : Type := {
  item_cooccurrence : option (Dict.t (Dict.t Z));
  item_popularity : option (Dict.t Q);
  item_features : option unit;
  is_fitted : bool
}.

(** [MenuRecommender()] *)
Definition init : MenuRecommender :=
  {| item_cooccurrence := None; item_popularity := None;
     item_features := None; is_fitted := false |}.

Definition set_item_cooccurrence (self : MenuRecommender) c :=
  {| item_cooccurrence := c; item_popularity := item_popularity self;
     item_features := item_features self; is_fitted := is_fitted self |}.

Definition set_item_popularity (self : MenuRecommender) p :=
  {| item_cooccurrence := item_cooccurrence self; item_popularity := p;
     item_features := item_features self; is_fitted := is_fitted self |}.

Definition set_is_fitted (self : MenuRecommender) b :=
  {| item_cooccurrence := item_cooccurrence self;
     item_popularity := item_popularity self;
     item_features := item_features self; is_fitted := b |}.

(** A method body: the outcome and the object after the call. *)
Definition method (A : Type) : Type :=
  MenuRecommender -> result A * MenuRecommender.

(** ** [train] *)

Record train_summary : Type := {
  num_transactions : Z;
  num_items : Z;
  avg_items_per_transaction : Q
}.

(** [for item in transaction: item_counts[item] += 1] *)
Definition count_items (transaction : list Z) (item_counts : Dict.t Z) :=
  fold_left (fun ic item => incr item ic) transaction item_counts.

(** The two mirrored increments of one pair. *)
Definition count_pair (c : Dict.t (Dict.t Z)) (p : Z * Z) :=
  let '(item1, item2) := p in cooc_incr item2 item1 (cooc_incr item1 item2 c).

(** [for item1, item2 in combinations(transaction, 2): ...] *)
Definition count_cooccurrences (transaction : list Z) (c : Dict.t (Dict.t Z)) :=
  fold_left count_pair (combinations2 transaction) c.

(** The loop over the transactions, on the pair of the co-occurrence table
    and the local [item_counts]. *)
Definition train_step (st : Dict.t (Dict.t Z) * Dict.t Z) (transaction : list Z) :=
  (count_cooccurrences transaction (fst st), count_items transaction (snd st)).

Definition train_loop (transactions : list (list Z))
    (st : Dict.t (Dict.t Z) * Dict.t Z) :=
  fold_left train_step transactions st.

(** [{item: count / total for item, count in item_counts.items()}]: the
    division is evaluated once per entry, so it raises only when there is an
    entry. *)
Fixpoint popularity_table (item_counts : list (Z * Z)) (total : Z)
    : result (Dict.t Q) :=
  match item_counts with
  | [] => Ok []
  | (item, count) :: r =>
    match truediv count total with
    | Raise e => Raise e
    | Ok q =>
      match popularity_table r total with
      | Raise e => Raise e
      | Ok p => Ok ((item, q) :: p)
      end
    end
  end.

(** The method stores the fresh co-occurrence table before the loop and
    fills it in place; nothing in the loop can raise, so the table is
    written here once, after the loop. *)
Definition train (transactions : list (list Z)) : method train_summary :=
  fun self =>
  let '(c, item_counts) :=
    train_loop transactions (Dict.empty, Dict.empty) in
  let self := set_item_cooccurrence self (Some c) in
  let total_transactions := Z.of_nat (length transactions) in
  match popularity_table (Dict.items item_counts) total_transactions with
  | Raise e => (Raise e, self)
  | Ok p =>
    let self := set_item_popularity self (Some p) in
    let self := set_is_fitted self true in
    match truediv (Zsum (map (fun t => Z.of_nat (length t)) transactions))
                  total_transactions with
    | Raise e => (Raise e, self)
    | Ok avg =>
      (Ok {| num_transactions := total_transactions;
             num_items := Z.of_nat (length p);
             avg_items_per_transaction := avg |}, self)
    end
  end.

(** ** Sequencing of method bodies *)

Definition ret {A : Type} (a : A) : method A := fun self => (Ok a, self).

Definition raise {A : Type} (e : exn) : method A := fun self => (Raise e, self).

Definition bind {A B : Type} (m : method A) (f : A -> method B) : method B :=
  fun self =>
  match m self with
  | (Ok a, self') => f a self'
  | (Raise e, self') => (Raise e, self')
  end.

Notation "x <- m ;; k" := (bind m (fun x => k))
  (at level 61, m at next level, right associativity).

(** [if not self.is_fitted: raise ValueError(msg)] *)
Definition require_fitted (msg : string) : method unit :=
  fun self =>
  if is_fitted self then (Ok tt, self) else (Raise (ValueError msg), self).

(** ** [recommend_related_items] *)

Module Recommendation.
Record t : Type := {
  menu_item_id : Z;
  cooccurrence_count : Z;
  popularity_score : Q;
  recommendation_score : Q
}.
End Recommendation.

(** The body of the loop that scores one retained partner. *)
Definition score_item (p : Dict.t Q) (e : Z * Z) : Recommendation.t :=
  let '(item_id, cooccurrence_count) := e in
  let score :=
    (inject_Z cooccurrence_count + Dict.get_default item_id 0 p * 100)%Q in
  {| Recommendation.menu_item_id := item_id;
     Recommendation.cooccurrence_count := cooccurrence_count;
     Recommendation.popularity_score := Dict.get_default item_id 0%Q p;
     Recommendation.recommendation_score := round score 3 |}.

(** The partners kept for scoring: filtered by support, sorted by count,
    cut at [top_k]. *)
Definition retained_items (related_items : Dict.t Z) (top_k min_support : Z)
    : list (Z * Z) :=
  let related_items :=
    filter (fun kv => min_support <=? snd kv) (Dict.items related_items) in
  let sorted_items := sorted_reverse snd Z.ltb related_items in
  slice_to top_k sorted_items.

Definition recommend_related_items (menu_item_id top_k min_support : Z)
    : method (list Recommendation.t) :=
  _ <- require_fitted "Model must be trained before making recommendations" ;;
  fun self =>
  match item_cooccurrence self with
  | None => (Raise TypeError, self)
  | Some c =>
    if negb (Dict.contains menu_item_id c) then (Ok [], self)
    else
      let '(related_items, c) := Dict.dd_getitem Dict.empty menu_item_id c in
      let self := set_item_cooccurrence self (Some c) in
      match retained_items related_items top_k min_support,
            item_popularity self with
      | [], _ => (Ok [], self)
      | _ :: _, None => (Raise AttributeError, self)
      | chosen, Some p => (Ok (map (score_item p) chosen), self)
      end
  end.

(** ** [get_frequent_bundles] *)

Module Bundle.
Record t : Type := {
  items : list Z;
  support : Q;
  count : Z
}.
End Bundle.

(** [{(i1, i2): count for i1, cooccurrence in c.items()
                       for i2, count in cooccurrence.items() if i1 < i2}] *)
Definition item_support (c : Dict.t (Dict.t Z)) : list ((Z * Z) * Z) :=
  flat_map (fun e1 : Z * Dict.t Z =>
    flat_map (fun e2 : Z * Z =>
      if fst e1 <? fst e2 then [((fst e1, fst e2), snd e2)] else [])
      (Dict.items (snd e1)))
    (Dict.items c).

(** The loop that builds one bundle per sorted pair. *)
Fixpoint make_bundles (sorted_bundles : list ((Z * Z) * Z))
    (total_cooccurrences : Z) : result (list Bundle.t) :=
  match sorted_bundles with
  | [] => Ok []
  | ((i1, i2), support) :: r =>
    match truediv support total_cooccurrences with
    | Raise e => Raise e
    | Ok q =>
      match make_bundles r total_cooccurrences with
      | Raise e => Raise e
      | Ok bundles =>
        Ok ({| Bundle.items := [i1; i2];
               Bundle.support := round q 4;
               Bundle.count := support |} :: bundles)
      end
    end
  end.

Definition get_frequent_bundles (min_support : Q) (max_bundle_size : Z)
    : method (list Bundle.t) :=
  _ <- require_fitted "Model must be trained before finding bundles" ;;
  fun self =>
  match item_cooccurrence self with
  | None => (Raise AttributeError, self)
  | Some c =>
    let item_support := item_support c in
    let total_cooccurrences := Zsum (map snd item_support) in
    let min_count := (min_support * inject_Z total_cooccurrences)%Q in
    let item_support :=
      filter (fun kv => Qle_bool min_count (inject_Z (snd kv))) item_support in
    let sorted_bundles := sorted_reverse snd Z.ltb item_support in
    match make_bundles sorted_bundles total_cooccurrences with
    | Raise e => (Raise e, self)
    | Ok bundles => (Ok (slice_to 20 bundles), self)
    end
  end.

(** ** [get_cross_sell_opportunities] *)

Module CrossSell.
Record t : Type := {
  rec : Recommendation.t;
  cross_sell_potential : Q;
  recommendation_type : string
}.
End CrossSell.

(** The loop body at position [i] of [enumerate]. *)
Definition opportunity (i : Z) (rec : Recommendation.t) : CrossSell.t :=
  let potential_score :=
    (inject_Z (Recommendation.cooccurrence_count rec) * (6 # 10)
     + Recommendation.popularity_score rec * 1000 * (4 # 10))%Q in
  {| CrossSell.rec := rec;
     CrossSell.cross_sell_potential := round potential_score 3;
     CrossSell.recommendation_type :=
       if i <? 2 then "upsell"%string else "add-on"%string |}.

Fixpoint enumerate_from {A : Type} (i : Z) (l : list A) : list (Z * A) :=
  match l with
  | [] => []
  | x :: r => (i, x) :: enumerate_from (i + 1) r
  end.

Definition get_cross_sell_opportunities (menu_item_id top_k : Z)
    : method (list CrossSell.t) :=
  _ <- require_fitted
         "Model must be trained before finding cross-sell opportunities" ;;
  related <- recommend_related_items menu_item_id (top_k * 2) 3 ;;
  ret (map (fun ir => opportunity (fst ir) (snd ir))
           (enumerate_from 0 (slice_to top_k related))).

(** ** [get_item_statistics] *)

Module ItemStatistics.
Record t : Type := {
  menu_item_id : Z;
  popularity_score : Q;
  num_related_items : Z;
  top_related_items : list Recommendation.t;
  is_popular : bool
}.
End ItemStatistics.

Definition get_item_statistics (menu_item_id : Z)
    : method (option ItemStatistics.t) :=
  _ <- require_fitted "Model must be trained before getting statistics" ;;
  fun self =>
  match item_popularity self with
  | None => (Raise TypeError, self)
  | Some p =>
    match Dict.get menu_item_id p with
    | None => (Ok None, self)
    | Some pop =>
      (related <- recommend_related_items menu_item_id 10 1 ;;
       ret (Some {| ItemStatistics.menu_item_id := menu_item_id;
                    ItemStatistics.popularity_score := pop;
                    ItemStatistics.num_related_items :=
                      Z.of_nat (length related);
                    ItemStatistics.top_related_items := slice_to 5 related;
                    ItemStatistics.is_popular := Qltb (1 # 10) pop |})) self
    end
  end.

(** ** [recommend_items_for_order] *)

Module OrderItem.
Record t : Type := {
  menu_item_id : Z;
  score : Q;
  reason : string
}.
End OrderItem.

(** [scores[k] += x] on a [defaultdict(float)]. *)
Definition accumulate (k : Z) (x : Q) (scores : Dict.t Q) : Dict.t Q :=
  let '(v, scores') := Dict.dd_getitem 0%Q k scores in
  Dict.set k (v + x)%Q scores'.

(** [x in l] on a list of integers *)
Definition list_contains (x : Z) (l : list Z) : bool := existsb (Z.eqb x) l.

(** The inner loop over the recommendations related to one ordered item. *)
Definition add_related (current_order : list Z)
    (related : list Recommendation.t) (scores : Dict.t Q) : Dict.t Q :=
  fold_left (fun sc rec =>
    if negb (list_contains (Recommendation.menu_item_id rec) current_order)
    then accumulate (Recommendation.menu_item_id rec)
                    (Recommendation.recommendation_score rec) sc
    else sc) related scores.

(** The outer loop over the items of the order still to be visited. *)
Fixpoint aggregate (current_order todo : list Z) (top_k : Z)
    (scores : Dict.t Q) : method (Dict.t Q) :=
  match todo with
  | [] => ret scores
  | item_id :: todo' =>
    related <- recommend_related_items item_id (top_k * 2) 2 ;;
    aggregate current_order todo' top_k
              (add_related current_order related scores)
  end.

Definition popular_item (e : Z * Q) : OrderItem.t :=
  {| OrderItem.menu_item_id := fst e;
     OrderItem.score := snd e;
     OrderItem.reason := "popular" |}.

Definition bought_together_item (e : Z * Q) : OrderItem.t :=
  {| OrderItem.menu_item_id := fst e;
     OrderItem.score := round (snd e) 3;
     OrderItem.reason := "frequently_bought_together" |}.

Definition recommend_items_for_order (current_order : list Z) (top_k : Z)
    : method (list OrderItem.t) :=
  _ <- require_fitted "Model must be trained before making recommendations" ;;
  match current_order with
  | [] =>
    fun self =>
    match item_popularity self with
    | None => (Raise AttributeError, self)
    | Some p =>
      let sorted_items := sorted_reverse snd Qltb (Dict.items p) in
      (Ok (map popular_item (slice_to top_k sorted_items)), self)
    end
  | _ :: _ =>
    recommendation_scores <-
      aggregate current_order current_order top_k Dict.empty ;;
    let sorted_recommendations :=
      sorted_reverse snd Qltb (Dict.items recommendation_scores) in
    ret (map bought_together_item (slice_to top_k sorted_recommendations))
  end.

(** ** [get_menu_insights] *)

Module Insights.
Record t : Type := {
  total_unique_items : Z;
  top_popular_items : list (Z * Q);
  avg_popularity : Q;
  median_popularity : Q;
  std_popularity : Q
}.
End Insights.

Section MenuInsights.
(** [numpy.mean], [numpy.median] and [numpy.std] belong to a library
    outside the repository; the method is modelled over any three
    functions of a list of scores. *)
Variables np_mean np_median np_std : list Q -> Q.

Definition get_menu_insights : method Insights.t :=
  _ <- require_fitted "Model must be trained before getting insights" ;;
  fun self =>
  match item_popularity self with
  | None => (Raise AttributeError, self)
  | Some p =>
    let sorted_items := sorted_reverse snd Qltb (Dict.items p) in
    let popularity_scores := Dict.values p in
    (Ok {| Insights.total_unique_items := Z.of_nat (length p);
           Insights.top_popular_items := slice_to 10 sorted_items;
           Insights.avg_popularity := np_mean popularity_scores;
           Insights.median_popularity := np_median popularity_scores;
           Insights.std_popularity := np_std popularity_scores |}, self)
  end.
End MenuInsights.

(** ** Notions used to state the properties *)

(** [count(a, b)]: the stored co-occurrence count, [0] for an absent entry. *)
Definition cooccurrence (c : Dict.t (Dict.t Z)) (a b : Z) : Z :=
  Dict.get_default b 0 (Dict.get_default a Dict.empty c).

(** The table stores the same count for (a, b) and for (b, a). *)
Definition symmetric (c : Dict.t (Dict.t Z)) : Prop :=
  forall a b, cooccurrence c a b = cooccurrence c b a.



(** Number of positions, over all transactions, that hold [item]. *)
Definition occurrences (item : Z) (transactions : list (list Z)) : Z :=
  Zsum (map (fun t => Z.of_nat (count_occ Z.eq_dec t item)) transactions).

(** Number of transactions that contain [item] at least once. *)
Definition transactions_containing (item : Z) (transactions : list (list Z))
    : Z :=
  Z.of_nat (length (filter (list_contains item) transactions)).

(** The object a successful [train] leaves behind. *)
Definition trained (transactions : list (list Z)) (self : MenuRecommender)
    : Prop :=
  exists self0 summary, train transactions self0 = (Ok summary, self).

(** What the training loop maintains on the co-occurrence table: keys are
    not repeated, in the table and in each row, and every stored count is at
    least 1. *)
Definition row_inv (row : Dict.t Z) : Prop :=
  NoDup (Dict.keys row) /\ Forall (fun e => 1 <= snd e) row.

Definition cooc_inv (c : Dict.t (Dict.t Z)) : Prop :=
  NoDup (Dict.keys c) /\ Forall (fun e => row_inv (snd e)) c.

(** A method body that leaves the object as it found it, whatever the
    object and whatever the outcome. *)
Definition read_only {A : Type} (m : method A) : Prop :=
  forall self, snd (m self) = self.

(** The number of leading elements that [l[:k]] keeps (when the list is
    long enough). *)
Definition slice_len {A : Type} (k : Z) (l : list A) : nat :=
  if 0 <=? k then Z.to_nat k else Z.to_nat (Z.of_nat (length l) + k).


Definition nonincreasing_Q {A : Type} (key : A -> Q) (l : list A) : Prop :=
  StronglySorted (fun x y => (key y <= key x)%Q) l.

(** ** [save] and [load] *)

(** The dictionary that [save] dumps and [load] reads back. *)
Module ModelData.
Record t : Type := {
  item_cooccurrence : Dict.t (Dict.t Z);
  item_popularity : option (Dict.t Q);
  is_fitted : bool
}.
End ModelData.

Section Persistence.
(** [joblib.dump] and [joblib.load] belong to a library outside the
    repository: the two methods are modelled over any store [disk], any
    function that dumps a value at a path and any function that loads the
    value found at a path, either of which may raise. *)
Variable disk : Type.
Variable joblib_dump : ModelData.t -> string -> disk -> result unit * disk.
Variable joblib_load : string -> disk -> result ModelData.t.

(** [save] reads the object and writes to the store; [dict(None)] raises
    [TypeError]. *)
Definition save (path : string) (self : MenuRecommender) (d : disk)
    : result unit * disk :=
  if negb (is_fitted self)
  then (Raise (ValueError "Cannot save unfitted model"), d)
  else
    match item_cooccurrence self with
    | None => (Raise TypeError, d)
    | Some c =>
      joblib_dump {| ModelData.item_cooccurrence := c;
                     ModelData.item_popularity := item_popularity self;
                     ModelData.is_fitted := is_fitted self |} path d
    end.

Definition load (path : string) (d : disk) : method unit :=
  fun self =>
  match joblib_load path d with
  | Raise e => (Raise e, self)
  | Ok model_data =>
    let self :=
      set_item_cooccurrence self
        (Some (ModelData.item_cooccurrence model_data)) in
    let self :=
      set_item_popularity self (ModelData.item_popularity model_data) in
    let self := set_is_fitted self (ModelData.is_fitted model_data) in
    (Ok tt, self)
  end.

(** ** The recommender step of [train_all_models] (train_simple.py) *)

(** The entry stored in [results['models']['menu_recommender']]. *)
Inductive model_report : Type :=
| Success (metrics : train_summary) (model_file : string)
| Skipped (reason : string)
| Error (e : exn).

(** The body of the [try] of step 4, from the value returned by
    [create_transaction_matrix] on ([None] or a sequence of transactions);
    an exception raised inside is caught and reported. *)
Definition train_recommender_step (transactions : option (list (list Z)))
    (output_path : string) (d : disk) : model_report * disk :=
  match transactions with
  | None => (Skipped "Insufficient data", d)
  | Some transactions =>
    if 0 <? Z.of_nat (length transactions) then
      match train transactions init with
      | (Raise e, _) => (Error e, d)
      | (Ok recommender_metrics, recommender) =>
        match save (output_path ++ "/menu_recommender.pkl") recommender d with
        | (Raise e, d') => (Error e, d')
        | (Ok _, d') => (Success recommender_metrics "menu_recommender.pkl", d')
        end
      end
    else (Skipped "Insufficient data", d)
  end.
End Persistence.

(** A store in memory, the last value dumped at a path first: dumping
    always succeeds, loading a path never written raises. *)
Definition memory_disk : Type := list (string * ModelData.t).

Definition memory_dump (model_data : ModelData.t) (path : string)
    (d : memory_disk) : result unit * memory_disk :=
  (Ok tt, (path, model_data) :: d).

Fixpoint memory_load (path : string) (d : memory_disk) : result ModelData.t :=
  match d with
  | [] => Raise (ValueError "No such file")
  | (path', model_data) :: r =>
    if String.eqb path path' then Ok model_data else memory_load path r
  end.

(** ** More notions used to state the properties *)

(** Number of pairs of distinct positions of a transaction that hold [a] and
    [b], each unordered pair of positions counted once for (a, b) and once
    for (b, a). *)
Definition pair_count (a b : Z) (t : list Z) : Z :=
  let n_a := Z.of_nat (count_occ Z.eq_dec t a) in
  let n_b := Z.of_nat (count_occ Z.eq_dec t b) in
  if a =? b then n_a * (n_a - 1) else n_a * n_b.

(** Number of transactions that contain both [a] and [b]. *)
Definition transactions_containing_both (a b : Z)
    (transactions : list (list Z)) : Z :=
  Z.of_nat (length (filter (fun t => list_contains a t && list_contains b t)
                           transactions)).

(** What one pair of [combinations] adds to the count of (a, b): 1 when it
    is (a, b), 1 when it is (b, a). *)
Definition pair_hit (a b : Z) (p : Z * Z) : Z :=
  (if (a =? fst p) && (b =? snd p) then 1 else 0)
  + (if (a =? snd p) && (b =? fst p) then 1 else 0).

(** The item occurs in some transaction. *)
Definition appears (item : Z) (transactions : list (list Z)) : Prop :=
  exists t, In t transactions /\ In item t.

(** Every key of the table, and every key of each of its rows, satisfies
    [P]. *)
Definition keys_within (P : Z -> Prop) (c : Dict.t (Dict.t Z)) : Prop :=
  Forall (fun e => P (fst e) /\ Forall (fun e2 => P (fst e2)) (snd e)) c.

(** ** Example data *)

(** The transactions of the specification's scenario. *)
Definition scenario_transactions : list (list Z) :=
  [[1; 2; 3]; [1; 2]; [2; 3]; [1; 3]].

(** Item 1 bought twice with item 2 and once with item 3, and item 3 bought
    alone three more times. *)
Definition skewed_transactions : list (list Z) :=
  [[1; 2]; [1; 2]; [1; 3]; [3]; [3]; [3]].

(** One transaction that holds item 1 twice. *)
Definition repeated_item_transactions : list (list Z) := [[1; 1]].

(** Item 1 bought four times with item 2 and three times with item 3, and
    item 3 bought alone twice. *)
Definition cross_sell_transactions : list (list Z) :=
  [[1; 2]; [1; 2]; [1; 2]; [1; 2]; [1; 3]; [1; 3]; [1; 3]; [3]; [3]].

(** Three items, each pair bought together once. *)
Definition triangle_transactions : list (list Z) :=
  [[1; 2]; [1; 3]; [2; 3]].

(** * Properties *)

(** ** Dictionaries *)

Module DictFacts.
Section DictFacts.
Context {V : Type}.
Implicit Types (d : Dict.t V) (k : Z) (v : V).

Lemma get_set_same k v d : Dict.get k (Dict.set k v d) = Some v.
Proof.
  induction d as [|[k' v'] r IH]; simpl.
  - now rewrite Z.eqb_refl.
  - destruct (k =? k') eqn:E; simpl; rewrite ?Z.eqb_refl, ?E; auto.
Qed.

Lemma get_set_other k k' v d :
  k' <> k -> Dict.get k' (Dict.set k v d) = Dict.get k' d.
Proof.
  intros Hne. induction d as [|[k0 v0] r IH]; simpl.
  - destruct (k' =? k) eqn:E; auto. apply Z.eqb_eq in E. contradiction.
  - destruct (k =? k0) eqn:E; simpl.
    + apply Z.eqb_eq in E. subst k0.
      destruct (k' =? k) eqn:E'; auto.
      apply Z.eqb_eq in E'. contradiction.
    + now rewrite IH.
Qed.

Lemma get_default_set_same k v dflt d :
  Dict.get_default k dflt (Dict.set k v d) = v.
Proof. unfold Dict.get_default. now rewrite get_set_same. Qed.

Lemma get_default_set_other k k' v dflt d :
  k' <> k ->
  Dict.get_default k' dflt (Dict.set k v d) = Dict.get_default k' dflt d.
Proof. intros. unfold Dict.get_default. now rewrite get_set_other. Qed.

Lemma get_None_keys k d : Dict.get k d = None <-> ~ In k (Dict.keys d).
Proof.
  induction d as [|[k' v'] r IH]; simpl.
  - tauto.
  - destruct (k =? k') eqn:E.
    + apply Z.eqb_eq in E. subst k'. split; [discriminate|].
      intros H. exfalso. apply H. now left.
    + apply Z.eqb_neq in E. rewrite IH. split.
      * intros H [Heq | Hin]; [now subst | auto].
      * intros H Hin. apply H. now right.
Qed.

Lemma get_Some_In k v d : Dict.get k d = Some v -> In (k, v) d.
Proof.
  induction d as [|[k' v'] r IH]; simpl; [discriminate|].
  destruct (k =? k') eqn:E.
  - apply Z.eqb_eq in E. intros [= ->]. subst. now left.
  - auto.
Qed.

Lemma In_get_Some k v d :
  NoDup (Dict.keys d) -> In (k, v) d -> Dict.get k d = Some v.
Proof.
  induction d as [|[k' v'] r IH]; simpl; [tauto|].
  intros Hnd [Heq | Hin]; inversion Hnd as [|? ? Hni Hnd']; subst.
  - injection Heq as -> ->. now rewrite Z.eqb_refl.
  - destruct (k =? k') eqn:E.
    + apply Z.eqb_eq in E. subst k'. exfalso. apply Hni.
      change k with (fst (k, v)). now apply in_map.
    + auto.
Qed.

Lemma keys_set k v d :
  Dict.keys (Dict.set k v d) =
  if Dict.contains k d then Dict.keys d else Dict.keys d ++ [k].
Proof.
  unfold Dict.contains.
  induction d as [|[k' v'] r IH]; simpl; auto.
  destruct (k =? k') eqn:E; simpl.
  - apply Z.eqb_eq in E. now subst.
  - rewrite IH. now destruct (Dict.get k r).
Qed.

Lemma NoDup_keys_set k v d :
  NoDup (Dict.keys d) -> NoDup (Dict.keys (Dict.set k v d)).
Proof.
  intros Hnd. rewrite keys_set. unfold Dict.contains.
  destruct (Dict.get k d) eqn:E; auto.
  apply get_None_keys in E.
  apply NoDup_app; auto.
  - repeat constructor. simpl. tauto.
  - intros x Hx [<- | []]. contradiction.
Qed.

Lemma Forall_set (P : Z * V -> Prop) k v d :
  Forall P d -> P (k, v) -> Forall P (Dict.set k v d).
Proof.
  intros Hd Hk. induction Hd as [|[k' v'] r Hx Hr IH]; simpl.
  - now constructor.
  - destruct (k =? k'); constructor; auto.
Qed.

Lemma get_Some_Forall (P : Z * V -> Prop) k v d :
  Forall P d -> Dict.get k d = Some v -> P (k, v).
Proof.
  intros Hd Hg. apply get_Some_In in Hg.
  rewrite Forall_forall in Hd. auto.
Qed.
End DictFacts.
End DictFacts.

(** ** Counting *)

Lemma get_default_incr (k j : Z) (d : Dict.t Z) :
  Dict.get_default k 0 (incr j d) =
  Dict.get_default k 0 d + (if k =? j then 1 else 0).
Proof.
  unfold incr, Dict.dd_getitem.
  destruct (Z.eqb_spec k j) as [->|Hne].
  - destruct (Dict.get j d) eqn:E;
      rewrite DictFacts.get_default_set_same;
      unfold Dict.get_default; rewrite E; lia.
  - destruct (Dict.get j d) eqn:E;
      rewrite !DictFacts.get_default_set_other by assumption; lia.
Qed.

Lemma cooccurrence_cooc_incr (a b x y : Z) (c : Dict.t (Dict.t Z)) :
  cooccurrence (cooc_incr a b c) x y =
  cooccurrence c x y + (if (x =? a) && (y =? b) then 1 else 0).
Proof.
  unfold cooccurrence, cooc_incr, Dict.dd_getitem.
  destruct (Z.eqb_spec x a) as [->|Hne]; simpl.
  - destruct (Dict.get a c) eqn:E;
      rewrite DictFacts.get_default_set_same, get_default_incr;
      unfold Dict.get_default at 3; rewrite E; reflexivity.
  - destruct (Dict.get a c) eqn:E;
      rewrite !DictFacts.get_default_set_other by assumption; lia.
Qed.

Lemma cooccurrence_count_pair (c : Dict.t (Dict.t Z)) (p : Z * Z) (x y : Z) :
  cooccurrence (count_pair c p) x y =
  cooccurrence c x y
  + (if (x =? fst p) && (y =? snd p) then 1 else 0)
  + (if (x =? snd p) && (y =? fst p) then 1 else 0).
Proof.
  destruct p as [i1 i2]. simpl.
  rewrite !cooccurrence_cooc_incr. lia.
Qed.

Lemma symmetric_count_pair c p : symmetric c -> symmetric (count_pair c p).
Proof.
  intros Hs a b. rewrite !cooccurrence_count_pair, (Hs a b).
  destruct (a =? fst p), (b =? snd p), (a =? snd p), (b =? fst p);
    simpl; lia.
Qed.

Lemma symmetric_count_cooccurrences t c :
  symmetric c -> symmetric (count_cooccurrences t c).
Proof.
  unfold count_cooccurrences. generalize (combinations2 t) as ps.
  intros ps. revert c.
  induction ps as [|p ps IH]; simpl; intros c Hs; auto.
  apply IH. now apply symmetric_count_pair.
Qed.

Lemma symmetric_train_loop transactions st :
  symmetric (fst st) -> symmetric (fst (train_loop transactions st)).
Proof.
  unfold train_loop. revert st.
  induction transactions as [|t ts IH]; simpl; intros st Hs; auto.
  apply IH. simpl. now apply symmetric_count_cooccurrences.
Qed.

Lemma symmetric_empty : symmetric Dict.empty.
Proof. intros a b. reflexivity. Qed.

(** [train] always publishes the co-occurrence table of its loop. *)
Lemma train_item_cooccurrence transactions self :
  item_cooccurrence (snd (train transactions self)) =
  Some (fst (train_loop transactions (Dict.empty, Dict.empty))).
Proof.
  unfold train.
  destruct (train_loop transactions (Dict.empty, Dict.empty)) as [c ic].
  destruct (popularity_table _ _); [|reflexivity].
  destruct (truediv _ _); reflexivity.
Qed.

(** C4. Whatever transaction list [train] is called with, the co-occurrence
    table it publishes is symmetric: the count stored for (a, b) is the
    count stored for (b, a), absent entries counting as 0. *)
Theorem cooccurrence_table_symmetric :
  forall (transactions : list (list Z)) (self : MenuRecommender),
  exists c,
    item_cooccurrence (snd (train transactions self)) = Some c /\
    forall a b, cooccurrence c a b = cooccurrence c b a.
Proof.
  intros transactions self. eexists. split.
  - apply train_item_cooccurrence.
  - apply (symmetric_train_loop transactions (Dict.empty, Dict.empty)).
    exact symmetric_empty.
Qed.

(** ** The failed build on an empty transaction list *)

(** C2. On an empty transaction list [train] does fail, but with the
    [ZeroDivisionError] of the average in its return value, raised after the
    empty tables and the fitted flag have been stored: the object is left
    fitted, and a later query answers with an empty list. *)
Theorem train_empty_raises_after_commit :
  forall self : MenuRecommender,
  exists self',
    train [] self = (Raise ZeroDivisionError, self') /\
    is_fitted self' = true /\
    item_cooccurrence self' = Some Dict.empty /\
    item_popularity self' = Some Dict.empty /\
    recommend_items_for_order [] 5 self' = (Ok [], self').
Proof.
  intros self. eexists. repeat split.
Qed.

(** ** Queries on an unfitted object *)

Lemma require_fitted_unfitted (A : Type) msg (k : unit -> method A) self :
  is_fitted self = false ->
  bind (require_fitted msg) k self = (Raise (ValueError msg), self).
Proof. intros H. unfold bind, require_fitted. now rewrite H. Qed.

Lemma require_fitted_fitted (A : Type) msg (k : unit -> method A) self :
  is_fitted self = true ->
  bind (require_fitted msg) k self = k tt self.
Proof. intros H. unfold bind, require_fitted. now rewrite H. Qed.



(** ** Queries leave the object unchanged *)

Lemma read_only_ret (A : Type) (a : A) : read_only (ret a).
Proof. intros self. reflexivity. Qed.

Lemma read_only_bind (A B : Type) (m : method A) (f : A -> method B) :
  read_only m -> (forall a, read_only (f a)) -> read_only (bind m f).
Proof.
  intros Hm Hf self. unfold bind.
  specialize (Hm self). destruct (m self) as [[a|e] self']; simpl in *; subst.
  - apply Hf.
  - reflexivity.
Qed.

Lemma read_only_require_fitted msg : read_only (require_fitted msg).
Proof. intros self. unfold require_fitted. now destruct (is_fitted self). Qed.

Lemma set_item_cooccurrence_same self c :
  item_cooccurrence self = Some c ->
  set_item_cooccurrence self (Some c) = self.
Proof. destruct self. simpl. now intros ->. Qed.

(** Behind the membership test, the [defaultdict] lookup inserts nothing. *)
Lemma dd_getitem_contains (V : Type) (dflt : V) k (d : Dict.t V) :
  Dict.contains k d = true ->
  Dict.dd_getitem dflt k d = (Dict.get_default k dflt d, d).
Proof.
  unfold Dict.contains, Dict.dd_getitem, Dict.get_default.
  destruct (Dict.get k d); [reflexivity | discriminate].
Qed.

Lemma read_only_recommend_related_items menu_item_id top_k min_support :
  read_only (recommend_related_items menu_item_id top_k min_support).
Proof.
  apply read_only_bind; [apply read_only_require_fitted|].
  intros _ self.
  destruct (item_cooccurrence self) as [c|] eqn:Ec; [|reflexivity].
  destruct (Dict.contains menu_item_id c) eqn:Em; [|reflexivity].
  simpl. rewrite (dd_getitem_contains _ _ _ _ Em).
  rewrite (set_item_cooccurrence_same _ _ Ec).
  destruct (retained_items _ _ _); [reflexivity|].
  destruct (item_popularity self); reflexivity.
Qed.

Lemma read_only_get_frequent_bundles min_support max_bundle_size :
  read_only (get_frequent_bundles min_support max_bundle_size).
Proof.
  apply read_only_bind; [apply read_only_require_fitted|].
  intros _ self.
  destruct (item_cooccurrence self) as [c|]; [|reflexivity].
  cbv beta zeta. destruct (make_bundles _ _); reflexivity.
Qed.

Lemma read_only_get_cross_sell_opportunities menu_item_id top_k :
  read_only (get_cross_sell_opportunities menu_item_id top_k).
Proof.
  apply read_only_bind; [apply read_only_require_fitted|]. intros _.
  apply read_only_bind; [apply read_only_recommend_related_items|]. intros r.
  apply read_only_ret.
Qed.

Lemma read_only_aggregate current_order todo top_k scores :
  read_only (aggregate current_order todo top_k scores).
Proof.
  revert scores. induction todo as [|item_id todo IH]; intros scores; simpl.
  - apply read_only_ret.
  - apply read_only_bind; [apply read_only_recommend_related_items|].
    intros related. apply IH.
Qed.

Lemma read_only_recommend_items_for_order current_order top_k :
  read_only (recommend_items_for_order current_order top_k).
Proof.
  apply read_only_bind; [apply read_only_require_fitted|]. intros _.
  destruct current_order as [|x r].
  - intros self. destruct (item_popularity self); reflexivity.
  - apply read_only_bind; [apply read_only_aggregate|]. intros s.
    apply read_only_ret.
Qed.

Lemma read_only_get_menu_insights np_mean np_median np_std :
  read_only (get_menu_insights np_mean np_median np_std).
Proof.
  apply read_only_bind; [apply read_only_require_fitted|]. intros _ self.
  destruct (item_popularity self); reflexivity.
Qed.

(** C7. Each of the five queries hands back the object it was given: the
    co-occurrence table, the popularity table and the fitted flag after the
    call are those before it, for every argument (an item without an entry
    in the tables included) and for every object, fitted or not. *)
Theorem queries_are_read_only :
  forall (np_mean np_median np_std : list Q -> Q) (self : MenuRecommender),
  (forall menu_item_id top_k min_support,
     snd (recommend_related_items menu_item_id top_k min_support self) = self)
  /\ (forall min_support max_bundle_size,
     snd (get_frequent_bundles min_support max_bundle_size self) = self)
  /\ (forall menu_item_id top_k,
     snd (get_cross_sell_opportunities menu_item_id top_k self) = self)
  /\ (forall current_order top_k,
     snd (recommend_items_for_order current_order top_k self) = self)
  /\ snd (get_menu_insights np_mean np_median np_std self) = self.
Proof.
  intros np_mean np_median np_std self. repeat split; intros.
  - apply read_only_recommend_related_items.
  - apply read_only_get_frequent_bundles.
  - apply read_only_get_cross_sell_opportunities.
  - apply read_only_recommend_items_for_order.
  - apply read_only_get_menu_insights.
Qed.

(** ** Building twice *)

Lemma truediv_nonzero a b : b <> 0 -> truediv a b = Ok (inject_Z a / inject_Z b)%Q.
Proof. intros H. unfold truediv. apply Z.eqb_neq in H. now rewrite H. Qed.

Lemma popularity_table_nonzero item_counts total :
  total <> 0 ->
  popularity_table item_counts total =
  Ok (map (fun e => (fst e, (inject_Z (snd e) / inject_Z total)%Q)) item_counts).
Proof.
  intros H. induction item_counts as [|[item count] r IH]; simpl; auto.
  rewrite truediv_nonzero, IH by assumption. reflexivity.
Qed.

(** C8. A second [train] on the same transaction list leaves the object
    exactly as the first one left it: the tables are rebuilt from empty, not
    added to.  The outcome of the two calls is the same as well. *)
Theorem train_idempotent :
  forall (transactions : list (list Z)) (self : MenuRecommender),
  let self1 := snd (train transactions self) in
  let self2 := snd (train transactions self1) in
  item_cooccurrence self2 = item_cooccurrence self1 /\
  item_popularity self2 = item_popularity self1 /\
  is_fitted self2 = is_fitted self1 /\
  fst (train transactions self1) = fst (train transactions self).
Proof.
  intros transactions self. unfold train.
  destruct (train_loop transactions (Dict.empty, Dict.empty)) as [c ic] eqn:El.
  destruct transactions as [|t ts].
  - simpl in El. injection El as <- <-. simpl. auto.
  - rewrite popularity_table_nonzero, truediv_nonzero
      by (simpl length; lia).
    simpl. auto.
Qed.

(** ** Sorting and slicing *)

Section SortedReverseFacts.
Context {A K : Type} (key : A -> K) (ltb : K -> K -> bool).
Variable le : K -> K -> Prop.
Hypothesis ltb_true : forall a b, ltb a b = true -> le a b.
Hypothesis ltb_false : forall a b, ltb a b = false -> le b a.
Hypothesis le_trans : forall a b c, le a b -> le b c -> le a c.

Lemma insert_desc_perm x l : Permutation (x :: l) (insert_desc key ltb x l).
Proof.
  induction l as [|y r IH]; simpl; [reflexivity|].
  destruct (ltb (key x) (key y)); [|reflexivity].
  rewrite perm_swap. now constructor.
Qed.

Lemma sorted_reverse_perm l : Permutation l (sorted_reverse key ltb l).
Proof.
  induction l as [|x r IH]; simpl; [constructor|].
  rewrite <- insert_desc_perm. now constructor.
Qed.

Lemma insert_desc_sorted x l :
  StronglySorted (fun a b => le (key b) (key a)) l ->
  StronglySorted (fun a b => le (key b) (key a)) (insert_desc key ltb x l).
Proof.
  induction 1 as [|y r Hr IH Hy]; simpl.
  - repeat constructor.
  - destruct (ltb (key x) (key y)) eqn:E.
    + constructor; [assumption|].
      rewrite <- (insert_desc_perm x r).
      constructor; [now apply ltb_true | assumption].
    + constructor; [now constructor|].
      apply ltb_false in E. constructor; [assumption|].
      rewrite Forall_forall in Hy |- *. intros z Hz.
      apply le_trans with (key y); auto.
Qed.

Lemma sorted_reverse_sorted l :
  StronglySorted (fun a b => le (key b) (key a)) (sorted_reverse key ltb l).
Proof.
  induction l as [|x r IH]; simpl; [constructor|].
  now apply insert_desc_sorted.
Qed.
End SortedReverseFacts.

Lemma In_firstn (A : Type) (x : A) n l : In x (firstn n l) -> In x l.
Proof.
  revert n. induction l as [|y r IH]; intros [|n]; simpl; try tauto.
  intros [H | H]; eauto.
Qed.

Lemma In_skipn (A : Type) (x : A) n l : In x (skipn n l) -> In x l.
Proof.
  revert n. induction l as [|y r IH]; intros [|n]; simpl; try tauto.
  intros H. eauto.
Qed.

Lemma StronglySorted_firstn (A : Type) (R : A -> A -> Prop) n l :
  StronglySorted R l -> StronglySorted R (firstn n l).
Proof.
  intros H. revert n. induction H as [|x r Hr IH Hx]; intros [|n]; simpl;
    try constructor; auto.
  rewrite Forall_forall in Hx |- *. intros y Hy. apply Hx.
  eapply In_firstn; eauto.
Qed.

Lemma StronglySorted_split (A : Type) (R : A -> A -> Prop) n l x y :
  StronglySorted R l -> In x (firstn n l) -> In y (skipn n l) -> R x y.
Proof.
  intros H. revert n. induction H as [|z r Hr IH Hz]; intros [|n]; simpl;
    try tauto.
  intros [<- | Hx] Hy.
  - rewrite Forall_forall in Hz. apply Hz. eapply In_skipn; eauto.
  - eauto.
Qed.

Lemma StronglySorted_map (A B : Type) (R : B -> B -> Prop) (f : A -> B) l :
  StronglySorted (fun x y => R (f x) (f y)) l -> StronglySorted R (map f l).
Proof.
  induction 1 as [|x r Hr IH Hx]; simpl; constructor; auto.
  rewrite Forall_forall in Hx |- *. intros y Hy.
  apply in_map_iff in Hy as (z & <- & Hz). auto.
Qed.

Lemma slice_to_firstn (A : Type) k (l : list A) :
  slice_to k l = firstn (slice_len k l) l.
Proof. unfold slice_to, slice_len. now destruct (0 <=? k). Qed.

Lemma slice_to_length (A : Type) k (l : list A) :
  0 <= k ->
  length (slice_to k l) = Z.to_nat (Z.min k (Z.of_nat (length l))).
Proof.
  intros H. unfold slice_to. apply Z.leb_le in H. rewrite H.
  rewrite length_firstn. lia.
Qed.

Lemma slice_to_split (A : Type) k (l : list A) :
  l = slice_to k l ++ skipn (slice_len k l) l.
Proof. rewrite slice_to_firstn. symmetry. apply firstn_skipn. Qed.

Lemma StronglySorted_slice_to (A : Type) (R : A -> A -> Prop) k l :
  StronglySorted R l -> StronglySorted R (slice_to k l).
Proof. rewrite slice_to_firstn. apply StronglySorted_firstn. Qed.

Lemma Qltb_true a b : Qltb a b = true -> (a <= b)%Q.
Proof.
  unfold Qltb. intros H. apply negb_true_iff in H.
  apply Qlt_le_weak, Qnot_le_lt. intros Hle.
  apply Qle_bool_iff in Hle. congruence.
Qed.

Lemma Qltb_false a b : Qltb a b = false -> (b <= a)%Q.
Proof.
  unfold Qltb. intros H. apply negb_false_iff in H.
  now apply Qle_bool_iff.
Qed.



Lemma sorted_reverse_Q_sorted (A : Type) (key : A -> Q) l :
  nonincreasing_Q key (sorted_reverse key Qltb l).
Proof.
  apply (sorted_reverse_sorted key Qltb Qle Qltb_true Qltb_false).
  intros a b c. apply Qle_trans.
Qed.


(** ** Recommendations for an empty order *)

Lemma map_entry_popular_item (l : list (Z * Q)) :
  map (fun r => (OrderItem.menu_item_id r, OrderItem.score r))
      (map popular_item l) = l.
Proof.
  rewrite map_map. rewrite <- (map_id l) at 2.
  apply map_ext. now intros [k v].
Qed.

(** C9. On a fitted object, the recommendation for an empty order is a
    prefix of the popularity table sorted by non-increasing score, each entry
    tagged "popular": the entries are sorted by non-increasing popularity,
    every table entry left out has a popularity no greater than any entry
    returned, and for a count [top_k >= 0] exactly [min top_k n] of the [n]
    table entries are returned, so at most [top_k]. *)
Theorem recommend_for_empty_order_popular :
  forall (self : MenuRecommender) (p : Dict.t Q) (top_k : Z),
  is_fitted self = true ->
  item_popularity self = Some p ->
  exists result rest,
    recommend_items_for_order [] top_k self = (Ok result, self) /\
    Forall (fun r => OrderItem.reason r = "popular"%string) result /\
    nonincreasing_Q OrderItem.score result /\
    Permutation (Dict.items p)
      (map (fun r => (OrderItem.menu_item_id r, OrderItem.score r)) result
       ++ rest) /\
    (forall r e, In r result -> In e rest -> (snd e <= OrderItem.score r)%Q) /\
    (0 <= top_k ->
     length result = Z.to_nat (Z.min top_k (Z.of_nat (length p))) /\
     Z.of_nat (length result) <= top_k).
Proof.
  intros self p top_k Hf Hp.
  set (sorted_items := sorted_reverse snd Qltb (Dict.items p)).
  assert (Hsorted : nonincreasing_Q snd sorted_items)
    by apply sorted_reverse_Q_sorted.
  assert (Hperm : Permutation (Dict.items p) sorted_items)
    by apply sorted_reverse_perm.
  exists (map popular_item (slice_to top_k sorted_items)),
         (skipn (slice_len top_k sorted_items) sorted_items).
  split; [|split; [|split; [|split; [|split]]]].
  - unfold recommend_items_for_order.
    rewrite require_fitted_fitted by assumption. now rewrite Hp.
  - apply Forall_forall. intros r Hr.
    apply in_map_iff in Hr as (e & <- & _). reflexivity.
  - apply StronglySorted_map. simpl.
    now apply StronglySorted_slice_to.
  - rewrite map_entry_popular_item, <- slice_to_split. exact Hperm.
  - intros r e Hr He. apply in_map_iff in Hr as (e' & <- & He'). simpl.
    rewrite slice_to_firstn in He'.
    exact (StronglySorted_split _ _ _ _ _ _ Hsorted He' He).
  - intros Hk. rewrite length_map, slice_to_length by assumption.
    rewrite <- (Permutation_length Hperm). unfold Dict.items. lia.
Qed.

(** On the tables built from four transactions over three items, with
    [top_k = 2]. *)
Lemma recommend_for_empty_order_popular_example :
  let self := snd (train scenario_transactions init) in
  exists result rest,
    recommend_items_for_order [] 2 self = (Ok result, self) /\
    Forall (fun r => OrderItem.reason r = "popular"%string) result /\
    nonincreasing_Q OrderItem.score result /\
    Permutation [(1, 3 # 4); (2, 3 # 4); (3, 3 # 4)]
      (map (fun r => (OrderItem.menu_item_id r, OrderItem.score r)) result
       ++ rest) /\
    (forall r e, In r result -> In e rest -> (snd e <= OrderItem.score r)%Q) /\
    (0 <= 2 ->
     length result = Z.to_nat (Z.min 2 (Z.of_nat 3)) /\
     Z.of_nat (length result) <= 2).
Proof.
  exact (recommend_for_empty_order_popular
           (snd (train scenario_transactions init))
           [(1, 3 # 4); (2, 3 # 4); (3, 3 # 4)] 2 eq_refl eq_refl).
Defined.

(** ** Cross-sell opportunities *)

Lemma map_rec_opportunities (l : list Recommendation.t) (i : Z) :
  map CrossSell.rec
      (map (fun ir => opportunity (fst ir) (snd ir)) (enumerate_from i l)) = l.
Proof.
  revert i. induction l as [|r l IH]; intros i; simpl; [reflexivity|].
  now rewrite IH.
Qed.

(** C10. The cross-sell opportunities are, in the same order, the first
    [top_k] recommendations of the related-items query made with
    [top_k * 2] and [min_support = 3]; they are not sorted again by
    [cross_sell_potential], and there is a trained object where the second
    opportunity has a strictly greater potential than the first. *)
Theorem cross_sell_keeps_related_order :
  (forall (self self' : MenuRecommender) (menu_item_id top_k : Z)
          (related : list Recommendation.t),
     recommend_related_items menu_item_id (top_k * 2) 3 self
       = (Ok related, self') ->
     exists opportunities,
       get_cross_sell_opportunities menu_item_id top_k self
         = (Ok opportunities, self') /\
       map CrossSell.rec opportunities = slice_to top_k related) /\
  (exists transactions self menu_item_id top_k o1 o2 rest,
     trained transactions self /\
     get_cross_sell_opportunities menu_item_id top_k self
       = (Ok (o1 :: o2 :: rest), self) /\
     (CrossSell.cross_sell_potential o1
      < CrossSell.cross_sell_potential o2)%Q).
Proof.
  split.
  - intros self self' menu_item_id top_k related Hrel.
    eexists. split.
    + unfold get_cross_sell_opportunities.
      destruct (is_fitted self) eqn:Hf.
      * rewrite require_fitted_fitted by assumption.
        unfold bind at 1. rewrite Hrel. reflexivity.
      * unfold recommend_related_items in Hrel.
        rewrite require_fitted_unfitted in Hrel by assumption.
        discriminate.
    + apply map_rec_opportunities.
  - exists cross_sell_transactions.
    eexists. exists 1, 5. do 3 eexists. split; [|split].
    + exists init. eexists. vm_compute. reflexivity.
    + vm_compute. reflexivity.
    + vm_compute. reflexivity.
Qed.

(** The first part on the object of the example: item 1 was bought four
    times with item 2 and three times with item 3. *)
Lemma cross_sell_keeps_related_order_example :
  let self :=
    snd (train cross_sell_transactions init) in
  exists related opportunities,
    recommend_related_items 1 (5 * 2) 3 self = (Ok related, self) /\
    get_cross_sell_opportunities 1 5 self = (Ok opportunities, self) /\
    map CrossSell.rec opportunities = slice_to 5 related /\
    map Recommendation.menu_item_id related = [2; 3].
Proof.
  intros self.
  pose (related :=
    match fst (recommend_related_items 1 (5 * 2) 3 self) with
    | Ok r => r
    | Raise _ => []
    end).
  assert (Hrel : recommend_related_items 1 (5 * 2) 3 self = (Ok related, self))
    by (vm_compute; reflexivity).
  destruct (proj1 cross_sell_keeps_related_order self self 1 5 related Hrel)
    as (opportunities & Hcall & Hmap).
  exists related, opportunities.
  split; [exact Hrel|]. split; [exact Hcall|]. split; [exact Hmap|].
  vm_compute. reflexivity.
Defined.

(** ** The popularity table *)

Lemma Zsum_cons x l : Zsum (x :: l) = x + Zsum l.
Proof.
  unfold Zsum. simpl.
  assert (H : forall l a b, fold_left Z.add l (a + b) = a + fold_left Z.add l b).
  { clear. induction l as [|y l IH]; intros a b; simpl; [reflexivity|].
    now rewrite <- Z.add_assoc, IH. }
  rewrite <- H. f_equal. lia.
Qed.

Lemma Zsum_nonneg l : Forall (fun x => 0 <= x) l -> 0 <= Zsum l.
Proof.
  induction 1 as [|x l Hx Hl IH]; [reflexivity|].
  rewrite Zsum_cons. lia.
Qed.

Lemma get_default_count_items (k : Z) (t : list Z) (d : Dict.t Z) :
  Dict.get_default k 0 (count_items t d) =
  Dict.get_default k 0 d + Z.of_nat (count_occ Z.eq_dec t k).
Proof.
  unfold count_items. revert d.
  induction t as [|x t IH]; intros d; simpl; [lia|].
  rewrite IH, get_default_incr.
  destruct (Z.eq_dec x k) as [->|Hne].
  - rewrite Z.eqb_refl. lia.
  - destruct (Z.eqb_spec k x); [congruence | lia].
Qed.

Lemma get_default_train_loop (k : Z) transactions st :
  Dict.get_default k 0 (snd (train_loop transactions st)) =
  Dict.get_default k 0 (snd st) + occurrences k transactions.
Proof.
  unfold train_loop, occurrences. revert st.
  induction transactions as [|t ts IH]; intros st; simpl.
  - unfold Zsum. simpl. lia.
  - rewrite IH, Zsum_cons. simpl. rewrite get_default_count_items. lia.
Qed.

Lemma NoDup_keys_incr (k : Z) (d : Dict.t Z) :
  NoDup (Dict.keys d) -> NoDup (Dict.keys (incr k d)).
Proof.
  intros H. unfold incr, Dict.dd_getitem.
  destruct (Dict.get k d); repeat apply DictFacts.NoDup_keys_set; assumption.
Qed.

Lemma NoDup_keys_count_items t (d : Dict.t Z) :
  NoDup (Dict.keys d) -> NoDup (Dict.keys (count_items t d)).
Proof.
  unfold count_items. revert d.
  induction t as [|x t IH]; intros d H; simpl; auto using NoDup_keys_incr.
Qed.

Lemma NoDup_keys_train_loop transactions st :
  NoDup (Dict.keys (snd st)) ->
  NoDup (Dict.keys (snd (train_loop transactions st))).
Proof.
  unfold train_loop. revert st.
  induction transactions as [|t ts IH]; intros st H; simpl; auto.
  apply IH. simpl. now apply NoDup_keys_count_items.
Qed.

(** The local [item_counts] at the end of the loop holds, for each key, the
    number of occurrences of that item. *)
Lemma item_counts_occurrences transactions item n :
  In (item, n) (snd (train_loop transactions (Dict.empty, Dict.empty))) ->
  n = occurrences item transactions.
Proof.
  intros Hin.
  apply DictFacts.In_get_Some in Hin;
    [|apply NoDup_keys_train_loop; constructor].
  pose proof (get_default_train_loop item transactions
                (Dict.empty, Dict.empty)) as H.
  unfold Dict.get_default at 1 in H. rewrite Hin in H. simpl in H. lia.
Qed.

(** A successful [train]: the outcome and the object stored. *)
Lemma train_nonempty transactions self :
  transactions <> [] ->
  let st := train_loop transactions (Dict.empty, Dict.empty) in
  let total := Z.of_nat (length transactions) in
  let p := map (fun e => (fst e, (inject_Z (snd e) / inject_Z total)%Q))
               (snd st) in
  train transactions self =
  (Ok {| num_transactions := total;
         num_items := Z.of_nat (length p);
         avg_items_per_transaction :=
           (inject_Z (Zsum (map (fun t => Z.of_nat (length t)) transactions))
            / inject_Z total)%Q |},
   {| item_cooccurrence := Some (fst st);
      item_popularity := Some p;
      item_features := item_features self;
      is_fitted := true |}).
Proof.
  intros Hne st total p. unfold train. fold st.
  assert (Htotal : total <> 0)
    by (unfold total; destruct transactions; [congruence | simpl length; lia]).
  destruct st as [c ic] eqn:Est. fold total.
  unfold Dict.items. rewrite popularity_table_nonzero by assumption.
  rewrite truediv_nonzero by assumption. reflexivity.
Qed.

Lemma count_occ_le_1 (t : list Z) (item : Z) :
  (count_occ Z.eq_dec t item <= 1)%nat ->
  Z.of_nat (count_occ Z.eq_dec t item) =
  if list_contains item t then 1 else 0.
Proof.
  unfold list_contains.
  induction t as [|x t IH]; simpl; [reflexivity|].
  destruct (Z.eq_dec x item) as [->|Hne].
  - rewrite Z.eqb_refl. simpl. lia.
  - destruct (Z.eqb_spec item x); [congruence|]. simpl. exact IH.
Qed.

Lemma occurrences_no_duplicates (item : Z) transactions :
  (forall t, In t transactions -> (count_occ Z.eq_dec t item <= 1)%nat) ->
  occurrences item transactions = transactions_containing item transactions.
Proof.
  unfold occurrences, transactions_containing.
  induction transactions as [|t ts IH]; intros H; [reflexivity|].
  simpl map. rewrite Zsum_cons, IH by (intros; apply H; now right).
  rewrite count_occ_le_1 by (apply H; now left).
  simpl. destruct (list_contains item t); simpl length; lia.
Qed.

Lemma occurrences_nonneg item transactions : 0 <= occurrences item transactions.
Proof.
  apply Zsum_nonneg, Forall_forall. intros x Hx.
  apply in_map_iff in Hx as (t & <- & _). lia.
Qed.

Lemma transactions_containing_le item transactions :
  transactions_containing item transactions <= Z.of_nat (length transactions).
Proof.
  unfold transactions_containing. apply Nat2Z.inj_le, filter_length_le.
Qed.

Lemma ratio_nonneg (a b : Z) : 0 <= a -> 0 < b -> (0 <= inject_Z a / inject_Z b)%Q.
Proof.
  intros Ha Hb. apply Qle_shift_div_l.
  - change 0%Q with (inject_Z 0). now rewrite <- Zlt_Qlt.
  - rewrite Qmult_0_l. change 0%Q with (inject_Z 0). now rewrite <- Zle_Qle.
Qed.

Lemma ratio_le_1 (a b : Z) : a <= b -> 0 < b -> (inject_Z a / inject_Z b <= 1)%Q.
Proof.
  intros Ha Hb. apply Qle_shift_div_r.
  - change 0%Q with (inject_Z 0). now rewrite <- Zlt_Qlt.
  - rewrite Qmult_1_l. now rewrite <- Zle_Qle.
Qed.

(** C3 (as amended). For every non-empty transaction list, [train] succeeds
    and every value of the popularity table is the number of occurrences of
    its item over all transactions, repetitions inside a transaction
    included, divided by the number of transactions; it is not negative.
    When no transaction holds the item more than once, that is the number of
    transactions containing the item over the total, and it is at most 1. *)
Theorem popularity_is_occurrence_ratio :
  forall (transactions : list (list Z)) (self : MenuRecommender),
  transactions <> [] ->
  exists summary self' p,
    train transactions self = (Ok summary, self') /\
    item_popularity self' = Some p /\
    forall item v, In (item, v) (Dict.items p) ->
      (v == inject_Z (occurrences item transactions)
            / inject_Z (Z.of_nat (length transactions)))%Q /\
      (0 <= v)%Q /\
      ((forall t, In t transactions ->
          (count_occ Z.eq_dec t item <= 1)%nat) ->
       (v == inject_Z (transactions_containing item transactions)
             / inject_Z (Z.of_nat (length transactions)))%Q /\
       (v <= 1)%Q).
Proof.
  intros transactions self Hne.
  do 3 eexists. split; [apply train_nonempty; assumption|].
  split; [reflexivity|].
  intros item v Hin. unfold Dict.items in Hin.
  apply in_map_iff in Hin as ([k n] & [= <- <-] & Hin). simpl.
  apply item_counts_occurrences in Hin. subst n.
  assert (Hlen : 0 < Z.of_nat (length transactions))
    by (destruct transactions; [congruence | simpl length; lia]).
  split; [reflexivity|]. split.
  - apply ratio_nonneg; [apply occurrences_nonneg | assumption].
  - intros Hdup. rewrite (occurrences_no_duplicates _ _ Hdup).
    split; [reflexivity|].
    apply ratio_le_1; [apply transactions_containing_le | assumption].
Qed.

(** The four transactions of the specification's scenario: each item occurs
    three times, once per transaction that holds it. *)
Lemma popularity_is_occurrence_ratio_example :
  exists summary self' p,
    train scenario_transactions init = (Ok summary, self') /\
    item_popularity self' = Some p /\
    forall item v, In (item, v) (Dict.items p) ->
      (v == inject_Z (occurrences item scenario_transactions)
            / inject_Z (Z.of_nat (length scenario_transactions)))%Q /\
      (0 <= v)%Q /\
      ((forall t, In t scenario_transactions ->
          (count_occ Z.eq_dec t item <= 1)%nat) ->
       (v == inject_Z (transactions_containing item scenario_transactions)
             / inject_Z (Z.of_nat (length scenario_transactions)))%Q /\
       (v <= 1)%Q).
Proof.
  apply (popularity_is_occurrence_ratio scenario_transactions init).
  discriminate.
Defined.

(** C3, as stated, fails on a transaction that repeats an item: for the
    single transaction [1, 1] the popularity of item 1 is 2, which is above 1
    and is not the one transaction containing it over the one transaction. *)
Lemma popularity_above_one_with_duplicates :
  exists summary self' p v,
    train repeated_item_transactions init = (Ok summary, self') /\
    item_popularity self' = Some p /\
    In (1, v) (Dict.items p) /\
    ~ (v <= 1)%Q /\
    ~ (v == inject_Z (transactions_containing 1 repeated_item_transactions)
            / inject_Z (Z.of_nat (length repeated_item_transactions)))%Q.
Proof.
  do 3 eexists. exists (inject_Z 2 / inject_Z 1)%Q.
  split; [reflexivity|]. split; [reflexivity|].
  split; [now left|]. split; intros H; vm_compute in H; congruence.
Qed.

(** ** What a successful build leaves behind *)

Lemma set_set (V : Type) k (v v' : V) (d : Dict.t V) :
  Dict.set k v (Dict.set k v' d) = Dict.set k v d.
Proof.
  induction d as [|[k0 v0] r IH]; simpl.
  - now rewrite Z.eqb_refl.
  - destruct (k =? k0) eqn:E; simpl; rewrite ?Z.eqb_refl, ?E; congruence.
Qed.

Lemma incr_set (k : Z) (d : Dict.t Z) :
  incr k d = Dict.set k (Dict.get_default k 0 d + 1) d.
Proof.
  unfold incr, Dict.dd_getitem, Dict.get_default.
  destruct (Dict.get k d); [reflexivity | apply set_set].
Qed.

Lemma cooc_incr_set (a b : Z) (c : Dict.t (Dict.t Z)) :
  cooc_incr a b c = Dict.set a (incr b (Dict.get_default a Dict.empty c)) c.
Proof.
  unfold cooc_incr, Dict.dd_getitem, Dict.get_default.
  destruct (Dict.get a c); [reflexivity | apply set_set].
Qed.

Lemma row_inv_empty : row_inv Dict.empty.
Proof. split; constructor. Qed.

Lemma row_inv_incr (k : Z) (row : Dict.t Z) : row_inv row -> row_inv (incr k row).
Proof.
  intros [Hnd Hpos]. rewrite incr_set. split.
  - now apply DictFacts.NoDup_keys_set.
  - apply DictFacts.Forall_set; [assumption|]. simpl.
    unfold Dict.get_default. destruct (Dict.get k row) as [v|] eqn:E; [|lia].
    pose proof (DictFacts.get_Some_Forall _ _ _ _ Hpos E) as H. simpl in H. lia.
Qed.

Lemma cooc_inv_row (c : Dict.t (Dict.t Z)) (a : Z) :
  cooc_inv c -> row_inv (Dict.get_default a Dict.empty c).
Proof.
  intros [_ Hrows]. unfold Dict.get_default.
  destruct (Dict.get a c) as [row|] eqn:E; [|apply row_inv_empty].
  exact (DictFacts.get_Some_Forall _ _ _ _ Hrows E).
Qed.

Lemma cooc_inv_cooc_incr (a b : Z) (c : Dict.t (Dict.t Z)) :
  cooc_inv c -> cooc_inv (cooc_incr a b c).
Proof.
  intros Hc. pose proof (cooc_inv_row c a Hc) as Hrow.
  destruct Hc as [Hnd Hrows]. rewrite cooc_incr_set. split.
  - now apply DictFacts.NoDup_keys_set.
  - apply DictFacts.Forall_set; [assumption|]. simpl.
    now apply row_inv_incr.
Qed.

Lemma cooc_inv_count_cooccurrences t c :
  cooc_inv c -> cooc_inv (count_cooccurrences t c).
Proof.
  unfold count_cooccurrences. generalize (combinations2 t) as ps.
  intros ps. revert c.
  induction ps as [|[i1 i2] ps IH]; simpl; intros c Hc; auto.
  apply IH. now do 2 apply cooc_inv_cooc_incr.
Qed.

Lemma cooc_inv_train_loop transactions st :
  cooc_inv (fst st) -> cooc_inv (fst (train_loop transactions st)).
Proof.
  unfold train_loop. revert st.
  induction transactions as [|t ts IH]; simpl; intros st Hc; auto.
  apply IH. simpl. now apply cooc_inv_count_cooccurrences.
Qed.

(** A trained object has its flag set and both tables present, the
    co-occurrence table with the invariant of the loop. *)
Lemma trained_state transactions self :
  trained transactions self ->
  is_fitted self = true /\
  exists c p,
    item_cooccurrence self = Some c /\ item_popularity self = Some p /\
    cooc_inv c.
Proof.
  intros (self0 & summary & Htrain).
  destruct transactions as [|t ts]; [discriminate|].
  rewrite train_nonempty in Htrain by discriminate.
  injection Htrain as _ <-. simpl. split; [reflexivity|].
  do 2 eexists. split; [reflexivity|]. split; [reflexivity|].
  apply (cooc_inv_train_loop (t :: ts) (Dict.empty, Dict.empty)).
  split; constructor.
Qed.

(** The count read from a row entry. *)
Lemma cooccurrence_of_entry (c : Dict.t (Dict.t Z)) (a b v : Z) :
  cooc_inv c ->
  In (b, v) (Dict.get_default a Dict.empty c) ->
  cooccurrence c a b = v /\ 1 <= v.
Proof.
  intros Hc Hin. destruct (cooc_inv_row c a Hc) as [Hnd Hpos].
  unfold cooccurrence, Dict.get_default at 1.
  rewrite (DictFacts.In_get_Some _ _ _ Hnd Hin). split; [reflexivity|].
  rewrite Forall_forall in Hpos. exact (Hpos _ Hin).
Qed.


(** ** Related items *)

Lemma slice_to_nil (A : Type) k : slice_to k (@nil A) = [].
Proof. unfold slice_to. destruct (0 <=? k); apply firstn_nil. Qed.

Lemma retained_items_nil top_k min_support :
  retained_items Dict.empty top_k min_support = [].
Proof. unfold retained_items. simpl. apply slice_to_nil. Qed.

(** On a fitted object the query returns the scored retained partners of the
    row of the item, the empty row when the item has none. *)
Lemma recommend_related_items_fitted self c p menu_item_id top_k min_support :
  is_fitted self = true ->
  item_cooccurrence self = Some c ->
  item_popularity self = Some p ->
  recommend_related_items menu_item_id top_k min_support self =
  (Ok (map (score_item p)
           (retained_items (Dict.get_default menu_item_id Dict.empty c)
                           top_k min_support)), self).
Proof.
  intros Hf Hc Hp. unfold recommend_related_items.
  rewrite require_fitted_fitted by assumption. rewrite Hc.
  unfold Dict.get_default.
  destruct (Dict.contains menu_item_id c) eqn:Em; simpl.
  - rewrite (dd_getitem_contains _ _ _ _ Em).
    rewrite (set_item_cooccurrence_same _ _ Hc), Hp.
    unfold Dict.get_default.
    destruct (retained_items _ _ _); reflexivity.
  - unfold Dict.contains in Em.
    destruct (Dict.get menu_item_id c); [discriminate|].
    now rewrite retained_items_nil.
Qed.


Lemma retained_items_In row top_k min_support e :
  In e (retained_items row top_k min_support) ->
  In e row /\ min_support <= snd e.
Proof.
  unfold retained_items. rewrite slice_to_firstn. intros H.
  apply In_firstn in H.
  apply (Permutation_in _ (Permutation_sym (sorted_reverse_perm _ _ _))) in H.
  apply filter_In in H as [Hin Hle]. split; [exact Hin|].
  now apply Z.leb_le.
Qed.





(** ** Rounding *)





(** ** Frequent bundles *)

Lemma Zsum_In_le (l : list Z) (x : Z) :
  Forall (fun y => 0 <= y) l -> In x l -> x <= Zsum l.
Proof.
  induction 1 as [|y l Hy Hl IH]; simpl; [tauto|].
  rewrite Zsum_cons. pose proof (Zsum_nonneg l Hl).
  intros [-> | Hin]; [lia|]. specialize (IH Hin). lia.
Qed.

Lemma item_support_In (c : Dict.t (Dict.t Z)) (i1 i2 v : Z) :
  In ((i1, i2), v) (item_support c) ->
  exists row, In (i1, row) c /\ In (i2, v) row /\ i1 < i2.
Proof.
  unfold item_support, Dict.items. intros H.
  apply in_flat_map in H as ([k1 row] & Hrow & H).
  apply in_flat_map in H as ([k2 n] & Hn & H). simpl in H.
  destruct (Z.ltb_spec k1 k2) as [Hlt|]; [|contradiction].
  destruct H as [[= <- <- <-] | []]. eauto.
Qed.

(** On a table with the invariant of the loop, an entry of [item_support]
    is the positive count of its pair. *)
Lemma item_support_count (c : Dict.t (Dict.t Z)) (i1 i2 v : Z) :
  cooc_inv c ->
  In ((i1, i2), v) (item_support c) ->
  i1 < i2 /\ cooccurrence c i1 i2 = v /\ 1 <= v.
Proof.
  intros Hinv H. apply item_support_In in H as (row & Hrow & Hv & Hlt).
  split; [exact Hlt|]. apply cooccurrence_of_entry; [exact Hinv|].
  unfold Dict.get_default.
  now rewrite (DictFacts.In_get_Some _ _ _ (proj1 Hinv) Hrow).
Qed.

Lemma make_bundles_ok (l : list ((Z * Z) * Z)) (total : Z) :
  (l <> [] -> total <> 0) ->
  make_bundles l total =
  Ok (map (fun e =>
        {| Bundle.items := [fst (fst e); snd (fst e)];
           Bundle.support := round (inject_Z (snd e) / inject_Z total) 4;
           Bundle.count := snd e |}) l).
Proof.
  intros H. destruct l as [|e l]; [reflexivity|].
  assert (Ht : total <> 0) by (apply H; discriminate). clear H.
  induction (e :: l) as [|[[i1 i2] v] r IH]; simpl; [reflexivity|].
  now rewrite truediv_nonzero, IH.
Qed.




(** * Further properties of the recommender *)

(** ** The keys of the tables *)

Lemma Zsum_pos_iff (l : list Z) :
  Forall (fun x => 0 <= x) l -> (1 <= Zsum l <-> exists x, In x l /\ 1 <= x).
Proof.
  induction 1 as [|y l Hy Hl IH].
  - split; [unfold Zsum; simpl; lia | intros (x & [] & _)].
  - rewrite Zsum_cons. pose proof (Zsum_nonneg l Hl). split.
    + intros Hs. destruct (Z.le_gt_cases 1 y) as [H1|H1].
      * exists y. split; [now left | exact H1].
      * destruct IH as [IH _]. destruct IH as (x & Hx & Hx1); [lia|].
        exists x. split; [now right | exact Hx1].
    + intros (x & [<- | Hx] & Hx1); [lia|].
      destruct IH as [_ IH]. specialize (IH (ex_intro _ x (conj Hx Hx1))). lia.
Qed.

Lemma occurrences_pos_iff (item : Z) transactions :
  1 <= occurrences item transactions <-> appears item transactions.
Proof.
  unfold occurrences, appears. rewrite Zsum_pos_iff.
  - split.
    + intros (x & Hx & Hx1). apply in_map_iff in Hx as (t & <- & Ht).
      exists t. split; [exact Ht|].
      apply (count_occ_In Z.eq_dec). lia.
    + intros (t & Ht & Hin). exists (Z.of_nat (count_occ Z.eq_dec t item)).
      split; [apply in_map_iff; exists t; split; [reflexivity | exact Ht]|].
      apply (count_occ_In Z.eq_dec) in Hin. lia.
  - apply Forall_forall. intros x Hx.
    apply in_map_iff in Hx as (t & <- & _). lia.
Qed.

Lemma row_inv_count_items t (d : Dict.t Z) :
  row_inv d -> row_inv (count_items t d).
Proof.
  unfold count_items. revert d.
  induction t as [|x t IH]; intros d H; simpl; auto using row_inv_incr.
Qed.

Lemma row_inv_train_loop transactions st :
  row_inv (snd st) -> row_inv (snd (train_loop transactions st)).
Proof.
  unfold train_loop. revert st.
  induction transactions as [|t ts IH]; intros st H; simpl; auto.
  apply IH. simpl. now apply row_inv_count_items.
Qed.

(** In a dictionary of positive counts, the keys are the items whose count,
    read with default 0, is positive. *)
Lemma row_inv_keys (d : Dict.t Z) (k : Z) :
  row_inv d -> (In k (Dict.keys d) <-> 1 <= Dict.get_default k 0 d).
Proof.
  intros [_ Hpos]. unfold Dict.get_default.
  destruct (Dict.get k d) as [v|] eqn:E.
  - pose proof (DictFacts.get_Some_Forall _ _ _ _ Hpos E) as Hv.
    simpl in Hv. split; [intros _; exact Hv|]. intros _.
    apply DictFacts.get_Some_In in E.
    change k with (fst (k, v)). now apply in_map.
  - apply DictFacts.get_None_keys in E. split; [contradiction | lia].
Qed.

Lemma item_counts_keys transactions item :
  In item (Dict.keys (snd (train_loop transactions (Dict.empty, Dict.empty))))
  <-> appears item transactions.
Proof.
  rewrite row_inv_keys
    by (apply row_inv_train_loop; exact row_inv_empty).
  rewrite get_default_train_loop. simpl.
  apply occurrences_pos_iff.
Qed.

Lemma keys_map_values (V W : Type) (f : Z * V -> W) (d : Dict.t V) :
  Dict.keys (map (fun e => (fst e, f e)) d) = Dict.keys d.
Proof. unfold Dict.keys. rewrite map_map. reflexivity. Qed.

Lemma Zsum_lengths (transactions : list (list Z)) :
  Zsum (map (fun t => Z.of_nat (length t)) transactions) =
  Z.of_nat (length (concat transactions)).
Proof.
  induction transactions as [|t ts IH]; [reflexivity|].
  simpl map. rewrite Zsum_cons, IH. simpl concat. rewrite length_app. lia.
Qed.

Lemma appears_concat item transactions :
  appears item transactions <-> In item (concat transactions).
Proof.
  unfold appears. rewrite in_concat. split.
  - intros (t & Ht & Hin). eauto.
  - intros (t & Ht & Hin). eauto.
Qed.

(** X1. The popularity table has one entry per item that occurs in some
    transaction, no other entry, and every score in it is positive. *)
Theorem popularity_table_keys :
  forall (transactions : list (list Z)) (self : MenuRecommender),
  transactions <> [] ->
  exists summary self' p,
    train transactions self = (Ok summary, self') /\
    item_popularity self' = Some p /\
    NoDup (Dict.keys p) /\
    (forall item, In item (Dict.keys p) <-> appears item transactions) /\
    (forall item v, In (item, v) (Dict.items p) -> (0 < v)%Q).
Proof.
  intros transactions self Hne.
  do 3 eexists. split; [apply train_nonempty; assumption|].
  split; [reflexivity|].
  rewrite (keys_map_values _ _ (fun e => (inject_Z (snd e) / _)%Q)).
  split; [|split].
  - apply NoDup_keys_train_loop. constructor.
  - intros item. apply item_counts_keys.
  - intros item v Hin. unfold Dict.items in Hin.
    apply in_map_iff in Hin as ([k n] & [= <- <-] & Hin). simpl.
    pose proof (row_inv_train_loop transactions (Dict.empty, Dict.empty)
                  row_inv_empty) as [_ Hpos].
    rewrite Forall_forall in Hpos. specialize (Hpos _ Hin). simpl in Hpos.
    assert (Hlen : 0 < Z.of_nat (length transactions))
      by (destruct transactions; [congruence | simpl length; lia]).
    apply Qlt_shift_div_l.
    + change 0%Q with (inject_Z 0). now rewrite <- Zlt_Qlt.
    + rewrite Qmult_0_l. change 0%Q with (inject_Z 0).
      rewrite <- Zlt_Qlt. lia.
Qed.

Lemma popularity_table_keys_example :
  exists summary self' p,
    train scenario_transactions init = (Ok summary, self') /\
    item_popularity self' = Some p /\
    NoDup (Dict.keys p) /\
    (forall item, In item (Dict.keys p) <-> appears item scenario_transactions)
    /\ (forall item v, In (item, v) (Dict.items p) -> (0 < v)%Q).
Proof.
  apply (popularity_table_keys scenario_transactions init). discriminate.
Defined.

(** X2. On a non-empty transaction list [train] succeeds and reports the
    number of transactions, the number of distinct items over all
    transactions, and the total number of item positions divided by the
    number of transactions; it sets the fitted flag and keeps
    [item_features]. *)
Theorem train_summary_values :
  forall (transactions : list (list Z)) (self : MenuRecommender),
  transactions <> [] ->
  exists summary self',
    train transactions self = (Ok summary, self') /\
    num_transactions summary = Z.of_nat (length transactions) /\
    num_items summary
      = Z.of_nat (length (nodup Z.eq_dec (concat transactions))) /\
    (avg_items_per_transaction summary
     == inject_Z (Z.of_nat (length (concat transactions)))
        / inject_Z (Z.of_nat (length transactions)))%Q /\
    is_fitted self' = true /\
    item_features self' = item_features self.
Proof.
  intros transactions self Hne.
  do 2 eexists. split; [apply train_nonempty; assumption|]. simpl.
  split; [reflexivity|]. split; [|split; [|split; reflexivity]].
  - f_equal. rewrite length_map.
    rewrite <- (length_map fst). apply Permutation_length.
    apply NoDup_Permutation.
    + apply (NoDup_keys_train_loop transactions (Dict.empty, Dict.empty)).
      constructor.
    + apply NoDup_nodup.
    + intros item. rewrite nodup_In, <- appears_concat.
      apply item_counts_keys.
  - rewrite Zsum_lengths. reflexivity.
Qed.

Lemma train_summary_values_example :
  exists summary self',
    train scenario_transactions init = (Ok summary, self') /\
    num_transactions summary = 4 /\
    num_items summary = 3 /\
    (avg_items_per_transaction summary == 9 # 4)%Q.
Proof.
  destruct (train_summary_values scenario_transactions init)
    as (summary & self' & Htrain & Hn & Hi & Havg & _); [discriminate|].
  exists summary, self'. split; [exact Htrain|].
  split; [exact Hn|]. split; [exact Hi|]. exact Havg.
Defined.

(** ** The co-occurrence counts in closed form *)

Lemma Zsum_app (l1 l2 : list Z) : Zsum (l1 ++ l2) = Zsum l1 + Zsum l2.
Proof.
  induction l1 as [|x l1 IH]; simpl app.
  - unfold Zsum at 2. simpl. lia.
  - rewrite !Zsum_cons, IH. lia.
Qed.

Lemma cooccurrence_fold_count_pair (ps : list (Z * Z)) c (a b : Z) :
  cooccurrence (fold_left count_pair ps c) a b =
  cooccurrence c a b + Zsum (map (pair_hit a b) ps).
Proof.
  revert c. induction ps as [|p ps IH]; intros c; simpl.
  - unfold Zsum. simpl. lia.
  - rewrite IH, Zsum_cons, cooccurrence_count_pair. unfold pair_hit. lia.
Qed.

Lemma pair_hit_map_pair (a b x : Z) (r : list Z) :
  Zsum (map (pair_hit a b) (map (pair x) r)) =
  (if a =? x then Z.of_nat (count_occ Z.eq_dec r b) else 0)
  + (if b =? x then Z.of_nat (count_occ Z.eq_dec r a) else 0).
Proof.
  induction r as [|y r IH]; simpl map.
  - unfold Zsum. simpl. destruct (a =? x), (b =? x); reflexivity.
  - rewrite Zsum_cons, IH. unfold pair_hit. cbn [fst snd]. simpl count_occ.
    destruct (Z.eq_dec y a) as [Ha|Ha], (Z.eq_dec y b) as [Hb|Hb];
      rewrite ?Nat2Z.inj_succ;
      repeat match goal with
             | |- context [?u =? ?v] => destruct (Z.eqb_spec u v)
             end; cbn [andb]; try lia; congruence.
Qed.

Lemma pair_hit_combinations2 (a b : Z) (t : list Z) :
  Zsum (map (pair_hit a b) (combinations2 t)) = pair_count a b t.
Proof.
  induction t as [|x r IH]; simpl combinations2.
  - unfold pair_count. simpl. destruct (a =? b); reflexivity.
  - rewrite map_app, Zsum_app, pair_hit_map_pair, IH.
    unfold pair_count. simpl count_occ.
    destruct (Z.eqb_spec a b) as [->|Hab].
    + destruct (Z.eq_dec x b) as [->|Hx].
      * rewrite Z.eqb_refl, Nat2Z.inj_succ. lia.
      * destruct (Z.eqb_spec b x); [congruence | lia].
    + destruct (Z.eq_dec x a) as [Ha|Ha], (Z.eq_dec x b) as [Hb|Hb];
        try congruence; rewrite ?Nat2Z.inj_succ;
        repeat match goal with
               | |- context [?u =? ?v] => destruct (Z.eqb_spec u v)
               end; try congruence; lia.
Qed.

Lemma cooccurrence_train_loop transactions st (a b : Z) :
  cooccurrence (fst (train_loop transactions st)) a b =
  cooccurrence (fst st) a b + Zsum (map (pair_count a b) transactions).
Proof.
  unfold train_loop. revert st.
  induction transactions as [|t ts IH]; intros st; simpl.
  - unfold Zsum. simpl. lia.
  - rewrite IH, Zsum_cons. simpl. unfold count_cooccurrences.
    rewrite cooccurrence_fold_count_pair, pair_hit_combinations2. lia.
Qed.

(** X3. The count stored for two different items is the sum, over the
    transactions, of the product of the numbers of times each occurs in the
    transaction; the count an item has with itself is the sum of n (n - 1)
    over the transactions that hold it n times. *)
Theorem cooccurrence_closed_form :
  forall (transactions : list (list Z)) (self : MenuRecommender),
  exists c,
    item_cooccurrence (snd (train transactions self)) = Some c /\
    forall a b,
      cooccurrence c a b = Zsum (map (pair_count a b) transactions).
Proof.
  intros transactions self. eexists. split.
  - apply train_item_cooccurrence.
  - intros a b. rewrite cooccurrence_train_loop. reflexivity.
Qed.

Lemma pair_count_NoDup (a b : Z) (t : list Z) :
  NoDup t ->
  pair_count a b t =
  if a =? b then 0
  else if list_contains a t && list_contains b t then 1 else 0.
Proof.
  intros Hnd. unfold pair_count.
  rewrite !count_occ_le_1 by (apply NoDup_count_occ; assumption).
  destruct (a =? b), (list_contains a t), (list_contains b t); reflexivity.
Qed.

Lemma Zsum_pair_count_without_repeats (a b : Z) transactions :
  (forall t, In t transactions -> NoDup t) ->
  Zsum (map (pair_count a b) transactions) =
  if a =? b then 0 else transactions_containing_both a b transactions.
Proof.
  intros Hnd. unfold transactions_containing_both.
  induction transactions as [|t ts IH].
  - destruct (a =? b); reflexivity.
  - simpl map. rewrite Zsum_cons, IH by (intros; apply Hnd; now right).
    rewrite pair_count_NoDup by (apply Hnd; now left). simpl filter.
    destruct (a =? b); [reflexivity|].
    destruct (list_contains a t && list_contains b t); simpl length; lia.
Qed.

(** X4. When no transaction repeats an item, the count stored for two
    different items is the number of transactions that contain both, and no
    item has a count with itself. *)
Theorem cooccurrence_without_repeats :
  forall (transactions : list (list Z)) (self : MenuRecommender),
  (forall t, In t transactions -> NoDup t) ->
  exists c,
    item_cooccurrence (snd (train transactions self)) = Some c /\
    (forall a b, a <> b ->
       cooccurrence c a b = transactions_containing_both a b transactions) /\
    (forall a, cooccurrence c a a = 0).
Proof.
  intros transactions self Hnd. eexists.
  split; [apply train_item_cooccurrence|].
  split.
  - intros a b Hab.
    rewrite cooccurrence_train_loop, Zsum_pair_count_without_repeats
      by assumption.
    simpl. destruct (Z.eqb_spec a b); [contradiction | reflexivity].
  - intros a.
    rewrite cooccurrence_train_loop, Zsum_pair_count_without_repeats
      by assumption.
    rewrite Z.eqb_refl. reflexivity.
Qed.

Lemma cooccurrence_without_repeats_example :
  exists c,
    item_cooccurrence (snd (train scenario_transactions init)) = Some c /\
    cooccurrence c 1 2 = 2 /\ cooccurrence c 1 3 = 2 /\
    cooccurrence c 2 3 = 2 /\ cooccurrence c 1 1 = 0.
Proof.
  destruct (cooccurrence_without_repeats scenario_transactions init)
    as (c & Hc & Hdiff & Hsame).
  - intros t Ht. simpl in Ht.
    destruct Ht as [<- | [<- | [<- | [<- | []]]]];
      repeat constructor; simpl; intuition discriminate.
  - exists c. split; [exact Hc|].
    rewrite !Hdiff by discriminate. rewrite Hsame. repeat split.
Defined.

(** ** Items of the co-occurrence table are items of the popularity table *)

Lemma keys_within_cooc_incr (P : Z -> Prop) (a b : Z) c :
  P a -> P b -> keys_within P c -> keys_within P (cooc_incr a b c).
Proof.
  intros Ha Hb Hc. unfold keys_within. rewrite cooc_incr_set.
  apply DictFacts.Forall_set; [exact Hc|]. simpl. split; [exact Ha|].
  rewrite incr_set. apply DictFacts.Forall_set; [|exact Hb].
  unfold Dict.get_default.
  destruct (Dict.get a c) as [row|] eqn:E; [|constructor].
  exact (proj2 (DictFacts.get_Some_Forall _ _ _ _ Hc E)).
Qed.

Lemma In_combinations2 (A : Type) (x y : A) (l : list A) :
  In (x, y) (combinations2 l) -> In x l /\ In y l.
Proof.
  induction l as [|z r IH]; simpl; [tauto|].
  intros H. apply in_app_or in H as [H | H].
  - apply in_map_iff in H as (w & [= <- <-] & Hw). auto.
  - destruct (IH H). auto.
Qed.

Lemma keys_within_count_cooccurrences (P : Z -> Prop) t c :
  (forall x, In x t -> P x) ->
  keys_within P c -> keys_within P (count_cooccurrences t c).
Proof.
  intros Ht. unfold count_cooccurrences.
  assert (Hps : forall x y, In (x, y) (combinations2 t) -> P x /\ P y).
  { intros x y H. apply In_combinations2 in H as [Hx Hy]. auto. }
  revert c Hps. generalize (combinations2 t) as ps.
  induction ps as [|[i1 i2] ps IH]; simpl; intros c Hps Hc; auto.
  destruct (Hps i1 i2 (or_introl eq_refl)) as [H1 H2].
  apply IH; [intros; apply Hps; now right|].
  apply keys_within_cooc_incr; [exact H2 | exact H1 |].
  apply keys_within_cooc_incr; assumption.
Qed.

Lemma keys_within_train_loop (P : Z -> Prop) transactions st :
  (forall t x, In t transactions -> In x t -> P x) ->
  keys_within P (fst st) ->
  keys_within P (fst (train_loop transactions st)).
Proof.
  unfold train_loop. revert st.
  induction transactions as [|t ts IH]; simpl; intros st HP Hc; auto.
  apply IH; [intros t' x Ht'; apply HP; now right|]. simpl.
  apply keys_within_count_cooccurrences; [|exact Hc].
  intros x Hx. apply (HP t); [now left | exact Hx].
Qed.

(** The tables of a trained object are those the loop computes. *)
Lemma trained_tables transactions self :
  trained transactions self ->
  transactions <> [] /\
  is_fitted self = true /\
  item_cooccurrence self
    = Some (fst (train_loop transactions (Dict.empty, Dict.empty))) /\
  item_popularity self
    = Some (map (fun e => (fst e,
                           (inject_Z (snd e)
                            / inject_Z (Z.of_nat (length transactions)))%Q))
                (snd (train_loop transactions (Dict.empty, Dict.empty)))).
Proof.
  intros (self0 & summary & Htrain).
  destruct transactions as [|t ts]; [discriminate|].
  rewrite train_nonempty in Htrain by discriminate.
  injection Htrain as _ <-. simpl. repeat split. discriminate.
Qed.

(** X5. Every item that has a row in the co-occurrence table, and every
    partner listed in a row, has an entry in the popularity table. *)
Theorem cooccurrence_items_have_popularity :
  forall (transactions : list (list Z)) (self : MenuRecommender)
         (c : Dict.t (Dict.t Z)) (p : Dict.t Q),
  trained transactions self ->
  item_cooccurrence self = Some c ->
  item_popularity self = Some p ->
  (forall a, In a (Dict.keys c) -> In a (Dict.keys p)) /\
  (forall a row b, In (a, row) (Dict.items c) -> In b (Dict.keys row) ->
     In b (Dict.keys p)).
Proof.
  intros transactions self c p Ht Hc Hp.
  destruct (trained_tables _ _ Ht) as (_ & _ & Hc' & Hp').
  rewrite Hc in Hc'. injection Hc' as ->.
  rewrite Hp in Hp'. injection Hp' as ->.
  rewrite (keys_map_values _ _ (fun e => (inject_Z (snd e) / _)%Q)).
  assert (Hk : keys_within (fun x => appears x transactions)
                 (fst (train_loop transactions (Dict.empty, Dict.empty)))).
  { apply keys_within_train_loop; [|constructor].
    intros t x Ht' Hx. exists t. auto. }
  unfold keys_within in Hk. rewrite Forall_forall in Hk. split.
  - intros a Ha. apply item_counts_keys.
    apply in_map_iff in Ha as ([a' row] & <- & Hin).
    exact (proj1 (Hk _ Hin)).
  - intros a row b Hin Hb. apply item_counts_keys.
    destruct (Hk _ Hin) as [_ Hrow]. simpl in Hrow.
    rewrite Forall_forall in Hrow.
    apply in_map_iff in Hb as ([b' v] & <- & Hb).
    exact (Hrow _ Hb).
Qed.

Lemma cooccurrence_items_have_popularity_example :
  exists c p,
    item_cooccurrence (snd (train skewed_transactions init)) = Some c /\
    item_popularity (snd (train skewed_transactions init)) = Some p /\
    (forall a, In a (Dict.keys c) -> In a (Dict.keys p)) /\
    (forall a row b, In (a, row) (Dict.items c) -> In b (Dict.keys row) ->
       In b (Dict.keys p)).
Proof.
  do 2 eexists. split; [reflexivity|]. split; [reflexivity|].
  apply (cooccurrence_items_have_popularity skewed_transactions
           (snd (train skewed_transactions init))).
  - exists init. eexists. vm_compute. reflexivity.
  - reflexivity.
  - reflexivity.
Defined.

(** ** Retraining *)

Lemma train_item_features transactions self :
  item_features (snd (train transactions self)) = item_features self.
Proof.
  unfold train.
  destruct (train_loop transactions (Dict.empty, Dict.empty)) as [c ic].
  destruct (popularity_table _ _); [|reflexivity].
  destruct (truediv _ _); reflexivity.
Qed.

Lemma train_empty self :
  train [] self =
  (Raise ZeroDivisionError,
   {| item_cooccurrence := Some Dict.empty;
      item_popularity := Some Dict.empty;
      item_features := item_features self;
      is_fitted := true |}).
Proof. reflexivity. Qed.

(** X6. [train] starts from empty tables: training on a second list leaves
    the object, and returns the outcome, that training on the second list
    alone would have given; nothing of the first list is kept. *)
Theorem retrain_replaces :
  forall (first second : list (list Z)) (self : MenuRecommender),
  train second (snd (train first self)) = train second self.
Proof.
  intros first second self.
  destruct second as [|t ts].
  - rewrite (train_empty self), (train_empty (snd (train first self))).
    now rewrite train_item_features.
  - rewrite (train_nonempty (t :: ts) self) by discriminate.
    rewrite (train_nonempty (t :: ts) (snd (train first self)))
      by discriminate.
    now rewrite train_item_features.
Qed.

(** ** More on related items *)

Lemma retained_items_firstn row top_k min_support :
  0 <= top_k ->
  retained_items row top_k min_support =
  firstn (Z.to_nat top_k)
    (sorted_reverse snd Z.ltb
       (filter (fun kv => min_support <=? snd kv) (Dict.items row))).
Proof.
  intros H. unfold retained_items, slice_to.
  apply Z.leb_le in H. now rewrite H.
Qed.

Lemma slice_to_nonneg (A : Type) k (l : list A) :
  0 <= k -> slice_to k l = firstn (Z.to_nat k) l.
Proof. intros H. unfold slice_to. apply Z.leb_le in H. now rewrite H. Qed.

(** X7. Asking for more related items only extends the answer: for
    [0 <= k <= k'] the answer for [top_k = k] is the first [k] entries of the
    answer for [top_k = k']. *)
Theorem related_items_prefix :
  forall (self : MenuRecommender) (c : Dict.t (Dict.t Z)) (p : Dict.t Q)
         (menu_item_id min_support k k' : Z),
  is_fitted self = true ->
  item_cooccurrence self = Some c ->
  item_popularity self = Some p ->
  0 <= k <= k' ->
  exists shorter longer,
    recommend_related_items menu_item_id k min_support self
      = (Ok shorter, self) /\
    recommend_related_items menu_item_id k' min_support self
      = (Ok longer, self) /\
    shorter = firstn (Z.to_nat k) longer.
Proof.
  intros self c p menu_item_id min_support k k' Hf Hc Hp Hk.
  do 2 eexists.
  split; [now apply (recommend_related_items_fitted self c p)|].
  split; [now apply (recommend_related_items_fitted self c p)|].
  rewrite !retained_items_firstn by lia.
  rewrite firstn_map, firstn_firstn. f_equal. f_equal. lia.
Qed.

Lemma related_items_prefix_example :
  let self := snd (train skewed_transactions init) in
  exists shorter longer,
    recommend_related_items 1 1 0 self = (Ok shorter, self) /\
    recommend_related_items 1 5 0 self = (Ok longer, self) /\
    shorter = firstn (Z.to_nat 1) longer.
Proof.
  intros self.
  apply (related_items_prefix self _ _ 1 0 1 5 eq_refl eq_refl eq_refl).
  lia.
Defined.

(** The row of an item that occurs in no transaction is empty. *)
Lemma row_of_absent_item transactions (item : Z) :
  ~ appears item transactions ->
  Dict.get item (fst (train_loop transactions (Dict.empty, Dict.empty)))
  = None.
Proof.
  intros Habs. apply DictFacts.get_None_keys. intros Hin.
  assert (Hk : keys_within (fun x => appears x transactions)
                 (fst (train_loop transactions (Dict.empty, Dict.empty)))).
  { apply keys_within_train_loop; [|constructor].
    intros t x Ht' Hx. exists t. auto. }
  unfold keys_within in Hk. rewrite Forall_forall in Hk.
  apply in_map_iff in Hin as ([a row] & <- & Hin).
  exact (Habs (proj1 (Hk _ Hin))).
Qed.

Lemma get_cross_sell_opportunities_fitted self c p menu_item_id top_k :
  is_fitted self = true ->
  item_cooccurrence self = Some c ->
  item_popularity self = Some p ->
  get_cross_sell_opportunities menu_item_id top_k self =
  (Ok (map (fun ir => opportunity (fst ir) (snd ir))
         (enumerate_from 0
            (slice_to top_k
               (map (score_item p)
                  (retained_items
                     (Dict.get_default menu_item_id Dict.empty c)
                     (top_k * 2) 3))))), self).
Proof.
  intros Hf Hc Hp. unfold get_cross_sell_opportunities.
  rewrite require_fitted_fitted by assumption. unfold bind.
  rewrite (recommend_related_items_fitted self c p) by assumption.
  reflexivity.
Qed.

(** X8. An item that occurs in no transaction is not an error for the
    queries: the related items and the cross-sell opportunities are empty,
    its statistics are [None], and an order made of it alone gets no
    recommendation. *)
Theorem unknown_item_gives_empty_answers :
  forall (transactions : list (list Z)) (self : MenuRecommender)
         (menu_item_id top_k min_support : Z),
  trained transactions self ->
  ~ appears menu_item_id transactions ->
  recommend_related_items menu_item_id top_k min_support self
    = (Ok [], self) /\
  get_cross_sell_opportunities menu_item_id top_k self = (Ok [], self) /\
  get_item_statistics menu_item_id self = (Ok None, self) /\
  recommend_items_for_order [menu_item_id] top_k self = (Ok [], self).
Proof.
  intros transactions self menu_item_id top_k min_support Ht Habs.
  destruct (trained_tables _ _ Ht) as (_ & Hf & Hc & Hp).
  pose proof (row_of_absent_item transactions menu_item_id Habs) as Hrow.
  assert (Hrel : forall k ms,
            recommend_related_items menu_item_id k ms self = (Ok [], self)).
  { intros k ms.
    rewrite (recommend_related_items_fitted self _ _ _ _ _ Hf Hc Hp).
    unfold Dict.get_default. rewrite Hrow.
    now rewrite retained_items_nil. }
  split; [apply Hrel|]. split; [|split].
  - rewrite (get_cross_sell_opportunities_fitted self _ _ _ _ Hf Hc Hp).
    unfold Dict.get_default. rewrite Hrow.
    rewrite retained_items_nil. simpl map. now rewrite slice_to_nil.
  - unfold get_item_statistics.
    rewrite require_fitted_fitted by assumption. rewrite Hp.
    assert (Hnone : forall (V W : Type) (f : Z * V -> W) (d : Dict.t V) k,
              Dict.get k d = None ->
              Dict.get k (map (fun e => (fst e, f e)) d) = None).
    { intros V W f d k H. apply DictFacts.get_None_keys.
      rewrite keys_map_values. now apply DictFacts.get_None_keys. }
    rewrite Hnone; [reflexivity|].
    apply DictFacts.get_None_keys. rewrite item_counts_keys. exact Habs.
  - unfold recommend_items_for_order.
    rewrite require_fitted_fitted by assumption.
    unfold bind. simpl aggregate. unfold bind. rewrite Hrel.
    simpl. now rewrite slice_to_nil.
Qed.

Lemma unknown_item_gives_empty_answers_example :
  let self := snd (train scenario_transactions init) in
  recommend_related_items 7 5 0 self = (Ok [], self) /\
  get_cross_sell_opportunities 7 5 self = (Ok [], self) /\
  get_item_statistics 7 self = (Ok None, self) /\
  recommend_items_for_order [7] 5 self = (Ok [], self).
Proof.
  intros self.
  apply (unknown_item_gives_empty_answers scenario_transactions self 7 5 0).
  - exists init. eexists. vm_compute. reflexivity.
  - intros (t & Ht & Hin). simpl in Ht.
    destruct Ht as [<- | [<- | [<- | [<- | []]]]]; simpl in Hin;
      intuition discriminate.
Defined.

(** X9. When no transaction repeats an item, the related-item query never
    returns the item it was asked about. *)
Theorem related_items_exclude_the_item :
  forall (transactions : list (list Z)) (self : MenuRecommender)
         (menu_item_id top_k min_support : Z)
         (result : list Recommendation.t),
  trained transactions self ->
  (forall t, In t transactions -> NoDup t) ->
  recommend_related_items menu_item_id top_k min_support self
    = (Ok result, self) ->
  ~ In menu_item_id (map Recommendation.menu_item_id result).
Proof.
  intros transactions self menu_item_id top_k min_support result Ht Hnd Hcall.
  destruct (trained_tables _ _ Ht) as (_ & Hf & Hc & Hp).
  destruct (trained_state _ _ Ht) as (_ & c' & p' & Hc' & _ & Hinv).
  rewrite Hc in Hc'. injection Hc' as <-.
  rewrite (recommend_related_items_fitted self _ _ _ _ _ Hf Hc Hp) in Hcall.
  injection Hcall as <-. rewrite map_map. intros Hin.
  apply in_map_iff in Hin as ([k v] & Hk & Hin). simpl in Hk. subst k.
  apply retained_items_In in Hin as [Hin _].
  destruct (cooccurrence_of_entry _ _ _ _ Hinv Hin) as [Hv Hpos].
  rewrite cooccurrence_train_loop, Zsum_pair_count_without_repeats in Hv
    by assumption.
  rewrite Z.eqb_refl in Hv. simpl in Hv. lia.
Qed.

Lemma related_items_exclude_the_item_example :
  let self := snd (train scenario_transactions init) in
  exists result,
    recommend_related_items 1 5 0 self = (Ok result, self) /\
    ~ In 1 (map Recommendation.menu_item_id result).
Proof.
  intros self. eexists.
  assert (Hcall : recommend_related_items 1 5 0 self = (Ok _, self))
    by (vm_compute; reflexivity).
  split; [exact Hcall|].
  apply (related_items_exclude_the_item scenario_transactions self 1 5 0);
    [| |exact Hcall].
  - exists init. eexists. vm_compute. reflexivity.
  - intros t Ht. simpl in Ht.
    destruct Ht as [<- | [<- | [<- | [<- | []]]]];
      repeat constructor; simpl; intuition discriminate.
Defined.

(** ** More on cross-sell opportunities *)

(** X10. For [top_k >= 0] the recommendations behind the cross-sell
    opportunities are exactly the answer of the related-item query with the
    same [top_k] and [min_support = 3]: fetching [top_k * 2] candidates
    first changes nothing. *)
Theorem cross_sell_is_related_with_support_3 :
  forall (self : MenuRecommender) (c : Dict.t (Dict.t Z)) (p : Dict.t Q)
         (menu_item_id top_k : Z),
  is_fitted self = true ->
  item_cooccurrence self = Some c ->
  item_popularity self = Some p ->
  0 <= top_k ->
  exists opportunities related,
    get_cross_sell_opportunities menu_item_id top_k self
      = (Ok opportunities, self) /\
    recommend_related_items menu_item_id top_k 3 self = (Ok related, self) /\
    map CrossSell.rec opportunities = related.
Proof.
  intros self c p menu_item_id top_k Hf Hc Hp Hk.
  do 2 eexists.
  split; [now apply (get_cross_sell_opportunities_fitted self c p)|].
  split; [now apply (recommend_related_items_fitted self c p)|].
  rewrite map_rec_opportunities, slice_to_nonneg by assumption.
  rewrite !retained_items_firstn by lia.
  rewrite firstn_map, firstn_firstn. f_equal. f_equal. lia.
Qed.

Lemma cross_sell_is_related_with_support_3_example :
  let self := snd (train cross_sell_transactions init) in
  exists opportunities related,
    get_cross_sell_opportunities 1 5 self = (Ok opportunities, self) /\
    recommend_related_items 1 5 3 self = (Ok related, self) /\
    map CrossSell.rec opportunities = related.
Proof.
  intros self.
  apply (cross_sell_is_related_with_support_3 self _ _ 1 5
           eq_refl eq_refl eq_refl).
  lia.
Defined.




(** ** Rounding is monotone *)

Lemma round_half_even_mono (q1 q2 : Q) :
  (q1 <= q2)%Q -> round_half_even q1 <= round_half_even q2.
Proof.
  intros H. pose proof (Qfloor_resp_le _ _ H) as Hf.
  pose proof (Qfloor_le q1) as Hl1. pose proof (Qfloor_le q2) as Hl2.
  unfold round_half_even.
  destruct (Z.eq_dec (Qfloor q1) (Qfloor q2)) as [Heq|Hne].
  - rewrite Heq in *.
    destruct ((q1 - inject_Z (Qfloor q2)) * 2 ?= 1)%Q eqn:E1;
      destruct ((q2 - inject_Z (Qfloor q2)) * 2 ?= 1)%Q eqn:E2;
      repeat match goal with
             | E : (_ ?= _)%Q = Eq |- _ => apply Qeq_alt in E
             | E : (_ ?= _)%Q = Lt |- _ => apply Qlt_alt in E
             | E : (_ ?= _)%Q = Gt |- _ => apply Qgt_alt in E
             end;
      destruct (Z.even (Qfloor q2));
      first [lia | exfalso; lra].
  - destruct ((q1 - inject_Z (Qfloor q1)) * 2 ?= 1)%Q;
      destruct ((q2 - inject_Z (Qfloor q2)) * 2 ?= 1)%Q;
      destruct (Z.even (Qfloor q1)), (Z.even (Qfloor q2)); lia.
Qed.

Lemma round3_mono (q1 q2 : Q) : (q1 <= q2)%Q -> (round q1 3 <= round q2 3)%Q.
Proof.
  intros H. unfold round. change (10 ^ 3) with 1000.
  apply Qmult_le_compat_r; [|discriminate].
  rewrite <- Zle_Qle. apply round_half_even_mono.
  apply Qmult_le_compat_r; [exact H | discriminate].
Qed.

(** ** Recommendations for a non-empty order *)

Lemma accumulate_set (k : Z) (x : Q) (scores : Dict.t Q) :
  accumulate k x scores =
  Dict.set k (Dict.get_default k 0%Q scores + x)%Q scores.
Proof.
  unfold accumulate, Dict.dd_getitem, Dict.get_default.
  destruct (Dict.get k scores); [reflexivity | apply set_set].
Qed.

(** The accumulated scores have no repeated key and no key of the order. *)
Lemma add_related_keys (current_order : list Z) related (scores : Dict.t Q) :
  NoDup (Dict.keys scores) /\
  Forall (fun e => list_contains (fst e) current_order = false) scores ->
  NoDup (Dict.keys (add_related current_order related scores)) /\
  Forall (fun e => list_contains (fst e) current_order = false)
         (add_related current_order related scores).
Proof.
  unfold add_related. revert scores.
  induction related as [|r related IH]; intros scores H; simpl; [exact H|].
  apply IH.
  destruct (list_contains (Recommendation.menu_item_id r) current_order)
    eqn:E; simpl; [exact H|].
  destruct H as [Hnd Hout]. rewrite accumulate_set. split.
  - now apply DictFacts.NoDup_keys_set.
  - apply DictFacts.Forall_set; [exact Hout | exact E].
Qed.

Lemma aggregate_fitted self c p current_order todo top_k scores :
  is_fitted self = true ->
  item_cooccurrence self = Some c ->
  item_popularity self = Some p ->
  NoDup (Dict.keys scores) /\
  Forall (fun e => list_contains (fst e) current_order = false) scores ->
  exists scores',
    aggregate current_order todo top_k scores self = (Ok scores', self) /\
    NoDup (Dict.keys scores') /\
    Forall (fun e => list_contains (fst e) current_order = false) scores'.
Proof.
  intros Hf Hc Hp. revert scores.
  induction todo as [|item_id todo IH]; intros scores H; simpl.
  - exists scores. split; [reflexivity | exact H].
  - unfold bind.
    rewrite (recommend_related_items_fitted self c p) by assumption.
    apply IH. now apply add_related_keys.
Qed.

Lemma StronglySorted_weaken (A : Type) (R R' : A -> A -> Prop) l :
  (forall x y, R x y -> R' x y) -> StronglySorted R l -> StronglySorted R' l.
Proof.
  intros HR. induction 1 as [|x r Hr IH Hx]; constructor; auto.
  rewrite Forall_forall in Hx |- *. auto.
Qed.

Lemma NoDup_firstn (A : Type) n (l : list A) : NoDup l -> NoDup (firstn n l).
Proof.
  intros H. rewrite <- (firstn_skipn n l) in H.
  now apply NoDup_app_remove_r in H.
Qed.

(** X12. On a fitted object, the recommendations for a non-empty order never
    contain an item of the order and never contain an item twice; each is
    tagged "frequently_bought_together"; they come in non-increasing order
    of score, and for [top_k >= 0] there are at most [top_k] of them. *)
Theorem order_recommendations_exclude_order :
  forall (self : MenuRecommender) (c : Dict.t (Dict.t Z)) (p : Dict.t Q)
         (current_order : list Z) (top_k : Z),
  is_fitted self = true ->
  item_cooccurrence self = Some c ->
  item_popularity self = Some p ->
  current_order <> [] ->
  exists result,
    recommend_items_for_order current_order top_k self = (Ok result, self) /\
    (forall r, In r result ->
       ~ In (OrderItem.menu_item_id r) current_order /\
       OrderItem.reason r = "frequently_bought_together"%string) /\
    NoDup (map OrderItem.menu_item_id result) /\
    nonincreasing_Q OrderItem.score result /\
    (0 <= top_k -> Z.of_nat (length result) <= top_k).
Proof.
  intros self c p current_order top_k Hf Hc Hp Hne.
  destruct (aggregate_fitted self c p current_order current_order top_k
              Dict.empty Hf Hc Hp) as (scores & Hagg & Hnd & Hout).
  { split; constructor. }
  set (sorted := sorted_reverse snd Qltb (Dict.items scores)).
  assert (Hperm : Permutation (Dict.items scores) sorted)
    by apply sorted_reverse_perm.
  exists (map bought_together_item (slice_to top_k sorted)).
  split; [|split; [|split; [|split]]].
  - unfold recommend_items_for_order.
    rewrite require_fitted_fitted by assumption.
    destruct current_order as [|x r]; [congruence|].
    unfold bind. rewrite Hagg. reflexivity.
  - intros r Hr. apply in_map_iff in Hr as (e & <- & He).
    split; [|reflexivity]. simpl.
    rewrite slice_to_firstn in He. apply In_firstn in He.
    apply (Permutation_in _ (Permutation_sym Hperm)) in He.
    rewrite Forall_forall in Hout. specialize (Hout _ He).
    intros Hin. unfold list_contains in Hout.
    assert (existsb (Z.eqb (fst e)) current_order = true)
      by (apply existsb_exists; exists (fst e); split;
          [exact Hin | apply Z.eqb_refl]).
    congruence.
  - rewrite map_map. simpl.
    change (map (fun x => fst x) (slice_to top_k sorted))
      with (map fst (slice_to top_k sorted)).
    rewrite slice_to_firstn, <- firstn_map. apply NoDup_firstn.
    apply (Permutation_NoDup (Permutation_map fst Hperm)). exact Hnd.
  - apply StronglySorted_map. apply StronglySorted_slice_to.
    apply (StronglySorted_weaken _ (fun x y => (snd y <= snd x)%Q)).
    + intros x y Hxy. simpl. now apply round3_mono.
    + apply sorted_reverse_Q_sorted.
  - intros Hk. rewrite length_map, slice_to_length by assumption. lia.
Qed.

Lemma order_recommendations_exclude_order_example :
  let self := snd (train scenario_transactions init) in
  exists result,
    recommend_items_for_order [1] 2 self = (Ok result, self) /\
    (forall r, In r result ->
       ~ In (OrderItem.menu_item_id r) [1] /\
       OrderItem.reason r = "frequently_bought_together"%string) /\
    NoDup (map OrderItem.menu_item_id result) /\
    nonincreasing_Q OrderItem.score result /\
    (0 <= 2 -> Z.of_nat (length result) <= 2).
Proof.
  intros self.
  apply (order_recommendations_exclude_order self _ _ [1] 2
           eq_refl eq_refl eq_refl).
  discriminate.
Defined.

(** ** Menu insights *)

(** X13. On a fitted object the insights count the entries of the popularity
    table, compute the three statistics over its scores, and list as top
    popular items the items and scores that the recommendation for an empty
    order gives for [top_k = 10]: at most 10, in non-increasing order of
    popularity. *)
Theorem menu_insights_top_popular :
  forall (np_mean np_median np_std : list Q -> Q)
         (self : MenuRecommender) (p : Dict.t Q),
  is_fitted self = true ->
  item_popularity self = Some p ->
  exists insights popular,
    get_menu_insights np_mean np_median np_std self = (Ok insights, self) /\
    recommend_items_for_order [] 10 self = (Ok popular, self) /\
    Insights.total_unique_items insights = Z.of_nat (length p) /\
    Insights.top_popular_items insights
      = map (fun r => (OrderItem.menu_item_id r, OrderItem.score r)) popular /\
    (length (Insights.top_popular_items insights) <= 10)%nat /\
    nonincreasing_Q snd (Insights.top_popular_items insights) /\
    Insights.avg_popularity insights = np_mean (Dict.values p) /\
    Insights.median_popularity insights = np_median (Dict.values p) /\
    Insights.std_popularity insights = np_std (Dict.values p).
Proof.
  intros np_mean np_median np_std self p Hf Hp.
  do 2 eexists. split; [|split].
  - unfold get_menu_insights.
    rewrite require_fitted_fitted by assumption. rewrite Hp. reflexivity.
  - unfold recommend_items_for_order.
    rewrite require_fitted_fitted by assumption. rewrite Hp. reflexivity.
  - simpl. split; [reflexivity|].
    split; [now rewrite map_entry_popular_item|].
    split; [rewrite slice_to_length by lia; lia|].
    split; [|repeat split].
    apply StronglySorted_slice_to, sorted_reverse_Q_sorted.
Qed.

Lemma menu_insights_top_popular_example :
  let self := snd (train scenario_transactions init) in
  exists insights,
    get_menu_insights (fun _ => 0%Q) (fun _ => 0%Q) (fun _ => 0%Q) self
      = (Ok insights, self) /\
    Insights.total_unique_items insights = 3 /\
    map fst (Insights.top_popular_items insights) = [1; 2; 3].
Proof.
  intros self.
  destruct (menu_insights_top_popular
              (fun _ => 0%Q) (fun _ => 0%Q) (fun _ => 0%Q) self
              _ eq_refl eq_refl)
    as (insights & popular & Hcall & _ & Hn & _).
  exists insights. split; [exact Hcall|]. split; [exact Hn|].
  assert (Hres : fst (get_menu_insights (fun _ => 0%Q) (fun _ => 0%Q)
                        (fun _ => 0%Q) self) = Ok insights)
    by now rewrite Hcall.
  vm_compute in Hres. injection Hres as <-. reflexivity.
Defined.

(** ** Item statistics *)

Lemma read_only_get_item_statistics menu_item_id :
  read_only (get_item_statistics menu_item_id).
Proof.
  apply read_only_bind; [apply read_only_require_fitted|]. intros _ self.
  destruct (item_popularity self) as [p|]; [|reflexivity].
  destruct (Dict.get menu_item_id p); [|reflexivity].
  apply read_only_bind; [apply read_only_recommend_related_items|].
  intros related. apply read_only_ret.
Qed.

(** X14. [get_item_statistics] raises the [ValueError] of its fitted check
    while the flag is unset, and in every case hands back the object it was
    given. *)
Theorem item_statistics_guard_and_frame :
  forall (self : MenuRecommender) (menu_item_id : Z),
  snd (get_item_statistics menu_item_id self) = self /\
  (is_fitted self = false ->
   get_item_statistics menu_item_id self =
   (Raise (ValueError "Model must be trained before getting statistics"),
    self)).
Proof.
  intros self menu_item_id. split.
  - apply read_only_get_item_statistics.
  - intros H. now apply require_fitted_unfitted.
Qed.

Lemma item_statistics_guard_and_frame_example :
  get_item_statistics 1 init =
  (Raise (ValueError "Model must be trained before getting statistics"),
   init).
Proof.
  exact (proj2 (item_statistics_guard_and_frame init 1) eq_refl).
Defined.

(** X15. On a fitted object the statistics of an item without a popularity
    entry are [None]; for an item with an entry they report its popularity,
    the number of related items found with [top_k = 10] and
    [min_support = 1] (so at most 10), the first 5 of those, and
    [is_popular] exactly when the popularity is above 0.1. *)
Theorem item_statistics_values :
  forall (self : MenuRecommender) (c : Dict.t (Dict.t Z)) (p : Dict.t Q)
         (menu_item_id : Z),
  is_fitted self = true ->
  item_cooccurrence self = Some c ->
  item_popularity self = Some p ->
  (Dict.get menu_item_id p = None ->
   get_item_statistics menu_item_id self = (Ok None, self)) /\
  (forall pop, Dict.get menu_item_id p = Some pop ->
   exists stats related,
     get_item_statistics menu_item_id self = (Ok (Some stats), self) /\
     recommend_related_items menu_item_id 10 1 self = (Ok related, self) /\
     ItemStatistics.menu_item_id stats = menu_item_id /\
     ItemStatistics.popularity_score stats = pop /\
     ItemStatistics.num_related_items stats = Z.of_nat (length related) /\
     ItemStatistics.num_related_items stats <= 10 /\
     ItemStatistics.top_related_items stats = firstn 5 related /\
     (ItemStatistics.is_popular stats = true <-> (1 # 10 < pop)%Q)).
Proof.
  intros self c p menu_item_id Hf Hc Hp. split.
  - intros Hnone. unfold get_item_statistics.
    rewrite require_fitted_fitted by assumption. now rewrite Hp, Hnone.
  - intros pop Hsome.
    pose proof (recommend_related_items_fitted self c p menu_item_id 10 1
                  Hf Hc Hp) as Hrel.
    do 2 eexists. split; [|split; [exact Hrel|]].
    + unfold get_item_statistics.
      rewrite require_fitted_fitted by assumption. rewrite Hp, Hsome.
      unfold bind. rewrite Hrel. reflexivity.
    + simpl. split; [reflexivity|]. split; [reflexivity|].
      split; [reflexivity|]. split; [|split; [reflexivity|]].
      * rewrite length_map. unfold retained_items.
        rewrite slice_to_length by lia. lia.
      * unfold Qltb. rewrite negb_true_iff. split.
        -- intros H. apply Qnot_le_lt. intros Hle.
           apply Qle_bool_iff in Hle. congruence.
        -- intros H. destruct (Qle_bool pop (1 # 10)) eqn:E; [|reflexivity].
           apply Qle_bool_iff in E. apply Qlt_not_le in H. contradiction.
Qed.

Lemma item_statistics_values_example :
  let self := snd (train scenario_transactions init) in
  get_item_statistics 7 self = (Ok None, self) /\
  exists stats,
    get_item_statistics 1 self = (Ok (Some stats), self) /\
    ItemStatistics.num_related_items stats = 2 /\
    ItemStatistics.is_popular stats = true.
Proof.
  intros self.
  destruct (item_statistics_values self _ _ 7 eq_refl eq_refl eq_refl)
    as [Hnone _].
  destruct (item_statistics_values self _ _ 1 eq_refl eq_refl eq_refl)
    as [_ Hsome].
  split; [apply Hnone; reflexivity|].
  destruct (Hsome (3 # 4) eq_refl)
    as (stats & related & Hcall & Hrel & _ & _ & Hnum & _ & _ & Hpop).
  exists stats. split; [exact Hcall|]. split.
  - rewrite Hnum.
    assert (Hres : fst (recommend_related_items 1 10 1 self) = Ok related)
      by now rewrite Hrel.
    vm_compute in Hres. injection Hres as <-. reflexivity.
  - apply Hpop. reflexivity.
Defined.

(** ** Saving and loading *)

Section PersistenceFacts.
Variable disk : Type.
Variable joblib_dump : ModelData.t -> string -> disk -> result unit * disk.
Variable joblib_load : string -> disk -> result ModelData.t.

(** What is loaded from a path is what was last dumped there. *)
Hypothesis load_after_dump :
  forall model_data path d d',
    joblib_dump model_data path d = (Ok tt, d') ->
    joblib_load path d' = Ok model_data.

Lemma save_ok_inv path self d d' :
  save disk joblib_dump path self d = (Ok tt, d') ->
  is_fitted self = true /\
  exists c,
    item_cooccurrence self = Some c /\
    joblib_dump {| ModelData.item_cooccurrence := c;
                   ModelData.item_popularity := item_popularity self;
                   ModelData.is_fitted := true |} path d = (Ok tt, d').
Proof.
  unfold save. destruct (is_fitted self); simpl; [|discriminate].
  destruct (item_cooccurrence self) as [c|]; [|discriminate].
  intros H. split; [reflexivity|]. now exists c.
Qed.

(** X16. A model saved with success and loaded into any object gives that
    object the tables and the fitted flag of the saved one, and leaves its
    [item_features]; loaded into an object with the same [item_features], a
    fresh one for instance, it gives back the saved object itself. *)
Theorem load_after_save :
  forall (self other : MenuRecommender) (path : string) (d d' : disk),
  save disk joblib_dump path self d = (Ok tt, d') ->
  exists other',
    load disk joblib_load path d' other = (Ok tt, other') /\
    item_cooccurrence other' = item_cooccurrence self /\
    item_popularity other' = item_popularity self /\
    is_fitted other' = true /\
    item_features other' = item_features other /\
    (item_features other = item_features self -> other' = self).
Proof.
  intros self other path d d' Hsave.
  apply save_ok_inv in Hsave as (Hf & c & Hc & Hdump).
  apply load_after_dump in Hdump.
  eexists. split; [unfold load; rewrite Hdump; reflexivity|]. simpl.
  split; [now rewrite Hc|]. split; [reflexivity|]. split; [reflexivity|].
  split; [reflexivity|].
  intros Hfeat. destruct self. simpl in *. subst. reflexivity.
Qed.

(** X17. [save] writes nothing unless the object is fitted and has a
    co-occurrence table: otherwise it raises and the store is as before. *)
Theorem save_requires_fitted :
  forall (self : MenuRecommender) (path : string) (d : disk),
  is_fitted self = false \/ item_cooccurrence self = None ->
  exists e, save disk joblib_dump path self d = (Raise e, d).
Proof.
  intros self path d H. unfold save.
  destruct (is_fitted self); simpl.
  - destruct H as [H | H]; [discriminate|]. rewrite H. eauto.
  - eauto.
Qed.

(** X18. The recommender step of [train_all_models] never trains on an empty
    feed: without transactions, or with none in the sequence, it reports
    "skipped" and writes nothing; otherwise training succeeds, the fitted
    model is handed to [joblib.dump], and the step reports success with the
    training metrics, or the error of the dump. *)
Theorem train_recommender_step_outcomes :
  forall (transactions : option (list (list Z))) (output_path : string)
         (d : disk),
  (transactions = None \/ transactions = Some [] ->
   train_recommender_step disk joblib_dump transactions output_path d
     = (Skipped "Insufficient data", d)) /\
  (forall txs, transactions = Some txs -> txs <> [] ->
   exists summary recommender c,
     train txs init = (Ok summary, recommender) /\
     item_cooccurrence recommender = Some c /\
     train_recommender_step disk joblib_dump transactions output_path d =
     match joblib_dump
             {| ModelData.item_cooccurrence := c;
                ModelData.item_popularity := item_popularity recommender;
                ModelData.is_fitted := true |}
             (output_path ++ "/menu_recommender.pkl") d with
     | (Ok _, d') => (Success summary "menu_recommender.pkl", d')
     | (Raise e, d') => (Error e, d')
     end).
Proof.
  intros transactions output_path d. split.
  - intros [-> | ->]; reflexivity.
  - intros txs -> Hne. unfold train_recommender_step.
    destruct txs as [|t ts]; [congruence|].
    assert (Hpos : (0 <? Z.of_nat (length (t :: ts))) = true)
      by (apply Z.ltb_lt; simpl length; lia).
    rewrite Hpos, train_nonempty by discriminate.
    do 3 eexists. split; [reflexivity|]. split; [reflexivity|].
    unfold save. simpl. reflexivity.
Qed.
End PersistenceFacts.

Lemma memory_load_after_dump :
  forall model_data path d d',
    memory_dump model_data path d = (Ok tt, d') ->
    memory_load path d' = Ok model_data.
Proof.
  intros model_data path d d' [= <-]. simpl. now rewrite String.eqb_refl.
Qed.

Lemma load_after_save_example :
  let self := snd (train scenario_transactions init) in
  exists other',
    load memory_disk memory_load "m.pkl"
      (snd (save memory_disk memory_dump "m.pkl" self [])) init
      = (Ok tt, other') /\
    other' = self.
Proof.
  intros self.
  destruct (load_after_save memory_disk memory_dump memory_load
              memory_load_after_dump self init "m.pkl" []
              (snd (save memory_disk memory_dump "m.pkl" self [])) eq_refl)
    as (other' & Hload & _ & _ & _ & _ & Hsame).
  exists other'. split; [exact Hload | apply Hsame; reflexivity].
Defined.

Lemma save_requires_fitted_example :
  exists e, save memory_disk memory_dump "m.pkl" init [] = (Raise e, []).
Proof.
  apply (save_requires_fitted memory_disk memory_dump init "m.pkl" []).
  now left.
Defined.

Lemma train_recommender_step_outcomes_example :
  train_recommender_step memory_disk memory_dump (Some []) "out" []
    = (Skipped "Insufficient data", []) /\
  exists summary d',
    train_recommender_step memory_disk memory_dump
      (Some scenario_transactions) "out" []
      = (Success summary "menu_recommender.pkl", d') /\
    num_transactions summary = 4.
Proof.
  destruct (train_recommender_step_outcomes memory_disk memory_dump
              (Some []) "out" []) as [Hskip _].
  destruct (train_recommender_step_outcomes memory_disk memory_dump
              (Some scenario_transactions) "out" []) as [_ Hrun].
  split; [apply Hskip; now right|].
  destruct (Hrun scenario_transactions eq_refl)
    as (summary & recommender & c & Htrain & _ & Hstep); [discriminate|].
  simpl in Hstep. do 2 eexists. split; [exact Hstep|].
  assert (Hres : fst (train scenario_transactions init) = Ok summary)
    by now rewrite Htrain.
  vm_compute in Hres. injection Hres as <-. reflexivity.
Defined.

(** ** Bundles are distinct pairs *)

Lemma NoDup_map_filter (A B : Type) (f : A -> B) (g : A -> bool) l :
  NoDup (map f l) -> NoDup (map f (filter g l)).
Proof.
  induction l as [|x l IH]; simpl; intros H; [constructor|].
  inversion H as [|? ? Hni Hnd]; subst.
  destruct (g x); simpl; auto.
  constructor; auto.
  intros Hin. apply Hni. apply in_map_iff in Hin as (y & Hy & Hin).
  apply filter_In in Hin as [Hin _]. apply in_map_iff. eauto.
Qed.

(** The pairs of one row, all with the key of the row first. *)
Lemma row_pairs_keys (i1 : Z) (row : Dict.t Z) :
  NoDup (Dict.keys row) ->
  NoDup (map fst
    (flat_map (fun e2 : Z * Z =>
       if i1 <? fst e2 then [((i1, fst e2), snd e2)] else []) row)) /\
  forall k, In k (map fst
    (flat_map (fun e2 : Z * Z =>
       if i1 <? fst e2 then [((i1, fst e2), snd e2)] else []) row)) ->
    fst k = i1 /\ In (snd k) (Dict.keys row).
Proof.
  induction row as [|[i2 v] row IH]; simpl; intros Hnd.
  - split; [constructor | tauto].
  - inversion Hnd as [|? ? Hni Hnd']; subst.
    destruct (IH Hnd') as [IH1 IH2].
    destruct (i1 <? i2); simpl.
    + split.
      * constructor; [|exact IH1]. intros Hin.
        apply IH2 in Hin as [_ Hin]. contradiction.
      * intros k [<- | Hin]; [simpl; auto|].
        destruct (IH2 k Hin). auto.
    + split; [exact IH1|]. intros k Hin. destruct (IH2 k Hin). auto.
Qed.

Lemma NoDup_item_support_keys (c : Dict.t (Dict.t Z)) :
  cooc_inv c -> NoDup (map fst (item_support c)).
Proof.
  intros [Hnd Hrows]. unfold item_support, Dict.items.
  induction c as [|[i1 row] c IH]; simpl; [constructor|].
  inversion Hnd as [|? ? Hni Hnd']; subst.
  inversion Hrows as [|? ? [Hrow _] Hrows']; subst. simpl in Hrow.
  destruct (row_pairs_keys i1 row Hrow) as [H1 H2].
  rewrite map_app. apply NoDup_app; [exact H1 | now apply IH |].
  intros k Hk Hin. apply H2 in Hk as [Hk _].
  apply in_map_iff in Hin as ([[j1 j2] w] & <- & Hin).
  apply in_flat_map in Hin as ([k1 row1] & Hrow1 & Hin).
  apply in_flat_map in Hin as ([k2 n] & _ & Hin). simpl in Hin.
  destruct (k1 <? k2); [|contradiction].
  destruct Hin as [[= <- <- <-] | []]. simpl in Hk. subst k1.
  apply Hni. change i1 with (fst (i1, row1)). now apply in_map.
Qed.

(** X19. On a trained object no pair of items is reported twice by
    [get_frequent_bundles], in either order: each bundle lists two items in
    increasing order, and the lists are pairwise distinct. *)
Theorem frequent_bundles_distinct :
  forall (transactions : list (list Z)) (self : MenuRecommender)
         (min_support : Q) (max_bundle_size : Z) (bundles : list Bundle.t),
  trained transactions self ->
  get_frequent_bundles min_support max_bundle_size self
    = (Ok bundles, self) ->
  NoDup (map Bundle.items bundles) /\
  forall b, In b bundles ->
    exists i1 i2, Bundle.items b = [i1; i2] /\ i1 < i2.
Proof.
  intros transactions self min_support max_bundle_size bundles Ht Hcall.
  destruct (trained_state _ _ Ht) as (Hf & c & p & Hc & _ & Hinv).
  unfold get_frequent_bundles in Hcall.
  rewrite require_fitted_fitted in Hcall by assumption.
  rewrite Hc in Hcall. cbv zeta in Hcall.
  set (total := Zsum (map snd (item_support c))) in *.
  set (kept := filter (fun kv => Qle_bool (min_support * inject_Z total)
                                          (inject_Z (snd kv)))
                      (item_support c)) in *.
  set (sorted_bundles := sorted_reverse snd Z.ltb kept) in *.
  assert (Hperm : Permutation kept sorted_bundles)
    by apply sorted_reverse_perm.
  assert (Hin : forall e, In e sorted_bundles -> In e (item_support c)).
  { intros e He. apply (Permutation_in _ (Permutation_sym Hperm)) in He.
    now apply filter_In in He as [He _]. }
  rewrite make_bundles_ok in Hcall.
  2:{ intros Hne. destruct sorted_bundles as [|[[i1 i2] v] r]; [congruence|].
      pose proof (Hin _ (or_introl eq_refl)) as He.
      destruct (item_support_count c i1 i2 v Hinv He) as (_ & _ & Hv).
      assert (v <= total); [|lia].
      apply Zsum_In_le.
      - apply Forall_forall. intros y Hy.
        apply in_map_iff in Hy as ([[j1 j2] w] & <- & Hw).
        apply (item_support_count c j1 j2 w Hinv) in Hw. simpl. lia.
      - change v with (snd (i1, i2, v)). now apply in_map. }
  injection Hcall as <-. split.
  - rewrite slice_to_firstn, <- firstn_map. apply NoDup_firstn.
    rewrite map_map. simpl.
    assert (Hk : NoDup (map fst sorted_bundles)).
    { apply (Permutation_NoDup (Permutation_map fst Hperm)).
      apply NoDup_map_filter. now apply NoDup_item_support_keys. }
    clear - Hk. induction sorted_bundles as [|[[i1 i2] v] r IH]; simpl;
      [constructor|].
    inversion Hk as [|? ? Hni Hnd]; subst.
    constructor; [|now apply IH].
    intros H. apply Hni. apply in_map_iff in H as ([[j1 j2] w] & Heq & Hw).
    simpl in Heq. injection Heq as -> ->.
    change (i1, i2) with (fst (i1, i2, w)). now apply in_map.
  - intros b Hb. rewrite slice_to_firstn in Hb. apply In_firstn in Hb.
    apply in_map_iff in Hb as ([[i1 i2] v] & <- & He).
    apply Hin in He.
    destruct (item_support_count c i1 i2 v Hinv He) as (Hlt & _).
    exists i1, i2. split; [reflexivity | exact Hlt].
Qed.

Lemma frequent_bundles_distinct_example :
  let self := snd (train triangle_transactions init) in
  exists bundles,
    get_frequent_bundles (1 # 100) 3 self = (Ok bundles, self) /\
    NoDup (map Bundle.items bundles) /\
    length bundles = 3%nat.
Proof.
  intros self. eexists.
  assert (Hcall : get_frequent_bundles (1 # 100) 3 self = (Ok _, self))
    by (vm_compute; reflexivity).
  split; [exact Hcall|]. split; [|reflexivity].
  apply (frequent_bundles_distinct triangle_transactions self (1 # 100) 3);
    [|exact Hcall].
  exists init. eexists. vm_compute. reflexivity.
Defined.
